(** * AOI satellite-imagery client: geometry engine, feature store,
      map reconciliation and GeoJSON export

    A shallow embedding of the core of the application:
    - [src/utils/mapUtils.ts]: [calculatePolygonArea], [calculateCircleArea],
      [createFeatureFromLayer];
    - [src/stores/mapStore.ts]: the zustand store and its actions;
    - [src/components/Map/MapContainer.tsx] and the single-file [App]
      component: the "restore features" effect, the persisted-state
      initializer, [removeFeature] and [exportGeoJSON].

    JavaScript numbers are kept behind the interface [JSNumber], so that every
    definition of the geometry engine can be read both over IEEE-754 doubles
    (Rocq's primitive floats) and over the real numbers. *)

From Stdlib Require Import ZArith Reals Lra Floats Ascii String.
From stdpp Require Import base option list strings pretty gmap.

Set Default Proof Using "Type".
Set Warnings "-register-all".

(* ===================================================================== *)
(** * Abrupt completion *)
(* ===================================================================== *)

(** A JavaScript expression either returns a value or throws. Only the two
    error classes that the embedded code can raise are listed. *)
Inductive JSError : Set :=
  | SyntaxError   (* JSON.parse on malformed text *)
  | TypeError.    (* property access on [undefined] *)

Inductive completion (A : Type) : Type :=
  | Normal (a : A)
  | Throw (e : JSError).
Arguments Normal {A} a.
Arguments Throw {A} e.

Global Instance completion_ret : MRet completion := fun _ a => Normal a.
Global Instance completion_bind : MBind completion := fun _ _ k c =>
  match c with
  | Normal a => k a
  | Throw e => Throw e
  end.

(** [xs[i].field]: indexing past the end yields [undefined], and reading a
    property of [undefined] throws a [TypeError]. *)
Definition index {A} (xs : list A) (i : nat) : completion A :=
  match xs !! i with
  | Some x => Normal x
  | None => Throw TypeError
  end.

(* ===================================================================== *)
(** * Numbers *)
(* ===================================================================== *)

(** The operations of [number] that the geometry code uses. [lit z] is the
    integer literal [z]; [gt a b] is the comparison [a > b]. *)
Class JSNumber (num : Type) : Type := {
  lit : Z → num;
  Math_PI : num;
  add : num → num → num;
  sub : num → num → num;
  mul : num → num → num;
  div : num → num → num;
  Math_abs : num → num;
  Math_sin : num → num;
  Math_cos : num → num;
  gt : num → num → bool;
  gt_zero_zero : gt (lit 0) (lit 0) = false;
}.

Declare Scope js_scope.
Delimit Scope js_scope with js.
Infix "+" := add : js_scope.
Infix "-" := sub : js_scope.
Infix "*" := mul : js_scope.
Infix "/" := div : js_scope.

(** ** Real numbers: the arithmetic the formulas are meant in *)

Definition Rgt_bool (a b : R) : bool :=
  if Rlt_dec b a then true else false.

Global Instance R_number : JSNumber R.
Proof.
  refine {|
    lit := IZR;
    Math_PI := PI;
    add := Rplus;
    sub := Rminus;
    mul := Rmult;
    div := Rdiv;
    Math_abs := Rabs;
    Math_sin := sin;
    Math_cos := cos;
    gt := Rgt_bool;
  |}.
  unfold Rgt_bool. destruct (Rlt_dec 0 0); [lra | reflexivity].
Defined.

(** ** IEEE-754 binary64: the arithmetic the program runs in

    Addition, subtraction, multiplication, division, absolute value and
    comparison are those of the primitive floats. [Math.sin] and [Math.cos]
    are implementation-approximated in ECMAScript, so they stay parameters of
    the instance. *)

(** An integer literal as a double; exact for the literals of the program,
    which are far below 2^53. *)
Definition float_lit (z : Z) : float :=
  if (z <? 0)%Z
  then PrimFloat.opp (PrimFloat.of_uint63 (Uint63.of_Z (- z)))
  else PrimFloat.of_uint63 (Uint63.of_Z z).

(** [Math.PI], the double nearest to pi. *)
Definition float_PI : float := 0x1.921fb54442d18p+1%float.

Definition float_number (fsin fcos : float → float) : JSNumber float := {|
  lit := float_lit;
  Math_PI := float_PI;
  add := PrimFloat.add;
  sub := PrimFloat.sub;
  mul := PrimFloat.mul;
  div := PrimFloat.div;
  Math_abs := PrimFloat.abs;
  Math_sin := fsin;
  Math_cos := fcos;
  gt := fun a b => PrimFloat.ltb b a;
  gt_zero_zero := eq_refl;
|}.

(* ===================================================================== *)
(** * Geometry engine ([mapUtils.ts]) *)
(* ===================================================================== *)

Section Geometry.
Context {num : Type} `{JSNumber num}.
Local Open Scope js_scope.

(** [L.LatLng] *)
Record LatLng : Type := mkLatLng { lat : num; lng : num }.

Definition EARTH_RADIUS : num := lit 6378137.

(** The summand of the loop body:
    [(p2.lng - p1.lng) * Math.PI / 180 *
     (2 + Math.sin(p1.lat * Math.PI / 180) + Math.sin(p2.lat * Math.PI / 180))] *)
Definition edge_term (p1 p2 : LatLng) : num :=
  (lng p2 - lng p1) * Math_PI / lit 180 *
  (lit 2 + Math_sin (lat p1 * Math_PI / lit 180)
         + Math_sin (lat p2 * Math_PI / lit 180)).

(** [for (let i = 0, l = pts.length; i < l; i++) { ... total += ... }];
    [n] counts the iterations that remain, [l - i]. *)
Fixpoint area_loop (pts : list LatLng) (l n i : nat) (total : num)
  : completion num :=
  match n with
  | O => Normal total
  | S n' =>
      p1 ← index pts i;
      p2 ← index pts ((i + 1) `mod` l);
      area_loop pts l n' (S i) (total + edge_term p1 p2)
  end.

Definition calculatePolygonArea (latlngs : list LatLng) : completion num :=
  if length latlngs <? 3 then Normal (lit 0)
  else
    total ← area_loop latlngs (length latlngs) (length latlngs) 0 (lit 0);
    Normal (Math_abs (total * EARTH_RADIUS * EARTH_RADIUS / lit 2)).

Definition calculateCircleArea (radius : num) : num :=
  Math_PI * radius * radius.

(** ** The area formula as the specification words it *)

(** The consecutive edges [(p1, p2)] of a vertex sequence, the last vertex
    being joined to the first. *)
Definition edges (pts : list LatLng) : list (LatLng * LatLng) :=
  zip pts (rotate 1 pts).

Definition deg_to_rad (x : num) : num := x * Math_PI / lit 180.

(** [dlng_rad * (2 + sin lat1_rad + sin lat2_rad)] *)
Definition spherical_excess_term (e : LatLng * LatLng) : num :=
  deg_to_rad (lng e.2 - lng e.1) *
  (lit 2 + Math_sin (deg_to_rad (lat e.1)) + Math_sin (deg_to_rad (lat e.2))).

(** Summation from zero, in sequence order. *)
Definition sum_terms (ts : list num) : num :=
  foldl add (lit 0) ts.

(** Absolute value of the sum scaled by R^2 / 2; fewer than three points
    give zero. *)
Definition polygonArea_formula (pts : list LatLng) : num :=
  if length pts <? 3 then lit 0
  else Math_abs
         (sum_terms (spherical_excess_term <$> edges pts)
          * EARTH_RADIUS * EARTH_RADIUS / lit 2).
End Geometry.

Arguments LatLng num : clear implicits.
Arguments mkLatLng {num} lat lng.

(** Summation over the reals, for the reading of the formula there. *)
Definition Rsum (ts : list R) : R := foldr Rplus 0%R ts.

(* ===================================================================== *)
(** * Features ([types/index.ts]) and their creation *)
(* ===================================================================== *)

(** [FeatureType] *)
Inductive FeatureType : Set := polygon | rectangle | circle | marker.

Global Instance FeatureType_eq_dec : EqDecision FeatureType.
Proof. solve_decision. Defined.

(** [FEATURE_COLORS] *)
Definition FEATURE_COLORS (t : FeatureType) : string :=
  match t with
  | polygon => "#3b82f6"
  | rectangle => "#10b981"
  | circle => "#8b5cf6"
  | marker => "#ef4444"
  end.

Section Features.
Context {num : Type} `{JSNumber num}.
Local Open Scope js_scope.

(** [AOIFeature['coordinates']], read together with the [type] field that
    every consumer switches on before it casts: [number[][]] of [[lat, lng]]
    pairs for a polygon or a rectangle, [{center, radius}] for a circle,
    [[lat, lng]] for a marker. *)
Inductive Coordinates : Type :=
  | PolygonCoords (latlngs : list (LatLng num))
  | RectangleCoords (latlngs : list (LatLng num))
  | CircleCoords (center : LatLng num) (radius : num)
  | MarkerCoords (pos : LatLng num).

(** [AOIFeature]; [area?: number] is [None] when the property is
    [undefined]. *)
Record AOIFeature : Type := mkFeature {
  id : string;
  name : string;
  coordinates : Coordinates;
  area : option num;
  color : string;
  createdAt : string;
}.

Definition type (f : AOIFeature) : FeatureType :=
  match coordinates f with
  | PolygonCoords _ => polygon
  | RectangleCoords _ => rectangle
  | CircleCoords _ _ => circle
  | MarkerCoords _ => marker
  end.

(** What a [draw:created] event carries: the drawn layer with its
    [layerType], as read back by [getLatLngs()[0]], [getLatLng()] and
    [getRadius()]. *)
Inductive DrawnLayer : Type :=
  | DrawnPolygon (latlngs : list (LatLng num))
  | DrawnRectangle (latlngs : list (LatLng num))
  | DrawnCircle (center : LatLng num) (radius : num)
  | DrawnMarker (pos : LatLng num).

Definition layerType (layer : DrawnLayer) : FeatureType :=
  match layer with
  | DrawnPolygon _ => polygon
  | DrawnRectangle _ => rectangle
  | DrawnCircle _ _ => circle
  | DrawnMarker _ => marker
  end.

(** [area > 0 ? area : undefined] *)
Definition positive_or_undefined (area : num) : option num :=
  if gt area (lit 0) then Some area else None.

(** [mapUtils.ts], [createFeatureFromLayer]. The results of [generateId()]
    and [new Date().toISOString()] are passed in as [fresh_id] and [now].
    [latlngs.map(ll => [ll.lat, ll.lng])] keeps every vertex as the pair of
    its latitude and longitude, which is what [LatLng] already is. *)
Definition createFeatureFromLayer (fresh_id now : string)
    (layer : DrawnLayer) (name : string) (existingFeatureCount : nat)
  : completion AOIFeature :=
  '(coordinates, area) ←
    match layer with
    | DrawnPolygon latlngs =>
        area ← calculatePolygonArea latlngs;
        Normal (PolygonCoords latlngs, area)
    | DrawnRectangle latlngs =>
        area ← calculatePolygonArea latlngs;
        Normal (RectangleCoords latlngs, area)
    | DrawnCircle center radius =>
        Normal (CircleCoords center radius, calculateCircleArea radius)
    | DrawnMarker pos =>
        Normal (MarkerCoords pos, lit 0)
    end;
  Normal {|
    id := fresh_id;
    name := if decide (name = "")
            then "AOI " +:+ pretty (existingFeatureCount + 1)%nat
            else name;
    coordinates := coordinates;
    area := positive_or_undefined area;
    color := FEATURE_COLORS (layerType layer);
    createdAt := now;
  |}.

(** The feature built by the [draw:created] handler of [App], which inlines
    the same construction; [features_length] is [features.length]. *)
Definition App_drawCreated (fresh_id now : string)
    (layer : DrawnLayer) (features_length : nat)
  : completion AOIFeature :=
  '(coords, area) ←
    match layer with
    | DrawnPolygon latlngs =>
        area ← calculatePolygonArea latlngs;
        Normal (PolygonCoords latlngs, area)
    | DrawnRectangle latlngs =>
        area ← calculatePolygonArea latlngs;
        Normal (RectangleCoords latlngs, area)
    | DrawnCircle center radius =>
        Normal (CircleCoords center radius, Math_PI * radius * radius)
    | DrawnMarker pos =>
        Normal (MarkerCoords pos, lit 0)
    end;
  Normal {|
    id := fresh_id;
    name := "AOI " +:+ pretty (features_length + 1)%nat;
    coordinates := coords;
    area := positive_or_undefined area;
    color := FEATURE_COLORS (layerType layer);
    createdAt := now;
  |}.

(** The area that the geometry of a drawn layer defines: none for a
    marker. *)
Definition geometric_area (layer : DrawnLayer) : option num :=
  match layer with
  | DrawnPolygon latlngs | DrawnRectangle latlngs =>
      Some (polygonArea_formula latlngs)
  | DrawnCircle _ radius => Some (Math_PI * radius * radius)
  | DrawnMarker _ => None
  end.

(** The [area] property of a created feature: the geometric area when it is
    greater than zero. *)
Definition created_area (layer : DrawnLayer) : option num :=
  a ← geometric_area layer; if gt a (lit 0) then Some a else None.
End Features.

Arguments Coordinates num : clear implicits.
Arguments AOIFeature num : clear implicits.
Arguments DrawnLayer num : clear implicits.

(* ===================================================================== *)
(** * The feature store ([stores/mapStore.ts]) *)
(* ===================================================================== *)

Module MapStore.

(** [MapStore['layers']] *)
Module Layers.
Record t : Set := mk { wms : bool; drawing : bool; features : bool }.

(** [keyof MapStore['layers']] *)
Inductive key : Set := Wms | Drawing | Features.

(** [{ ...layers, [layer]: !layers[layer] }] *)
Definition toggle (layer : key) (l : t) : t :=
  match layer with
  | Wms => mk (negb (wms l)) (drawing l) (features l)
  | Drawing => mk (wms l) (negb (drawing l)) (features l)
  | Features => mk (wms l) (drawing l) (negb (features l))
  end.
End Layers.

Section Store.
Context {num : Type} `{JSNumber num}.

(** The state held by the store (its data fields; the actions follow). *)
Record State : Type := mkState {
  center : num * num;
  zoom : num;
  layers : Layers.t;
  features : list (AOIFeature num);
  selectedFeature : option (AOIFeature num);
}.

(** A partial state, as the argument of zustand's [set]: the fields that an
    updater returns. *)
Record Partial : Type := mkPartial {
  center' : option (num * num);
  zoom' : option num;
  layers' : option Layers.t;
  features' : option (list (AOIFeature num));
  selectedFeature' : option (option (AOIFeature num));
}.

(** [set(partial)] replaces the fields that [partial] has and keeps the
    others (a shallow merge, [Object.assign({}, state, partial)]). *)
Definition assign (state : State) (partial : Partial) : State := {|
  center := default (center state) (center' partial);
  zoom := default (zoom state) (zoom' partial);
  layers := default (layers state) (layers' partial);
  features := default (features state) (features' partial);
  selectedFeature := default (selectedFeature state) (selectedFeature' partial);
|}.

(** [set((state) => partial)]. An action of the store is a call of [set]: it
    returns nothing and has no way to fail, so it is embedded as a function
    from the state before to the state after. (The [persist] middleware
    writes every new state to storage; that write is not modelled.) *)
Definition set (updater : State → Partial) (state : State) : State :=
  assign state (updater state).

(** The initial state of [create]. The two decimal literals of [center] are
    passed in, [lit] covering integer literals only. *)
Definition initial (center_lat center_lng : num) : State := {|
  center := (center_lat, center_lng);
  zoom := lit 10;
  layers := Layers.mk true false true;
  features := [];
  selectedFeature := None;
|}.

(** [Partial<Feature>], the [updates] argument of [updateFeature]. *)
Record FeatureUpdates : Type := mkUpdates {
  id' : option string;
  name' : option string;
  coordinates' : option (Coordinates num);
  area' : option (option num);
  color' : option string;
  createdAt' : option string;
}.

(** [{ ...f, ...updates }] *)
Definition spread (f : AOIFeature num) (updates : FeatureUpdates)
  : AOIFeature num := {|
  id := default (id f) (id' updates);
  name := default (name f) (name' updates);
  coordinates := default (coordinates f) (coordinates' updates);
  area := default (area f) (area' updates);
  color := default (color f) (color' updates);
  createdAt := default (createdAt f) (createdAt' updates);
|}.

(** [{ name }], the updates that the list item sends when a name is saved
    ([onUpdate({ name })]). *)
Definition only_name (new_name : string) : FeatureUpdates :=
  mkUpdates None (Some new_name) None None None None.

Definition setCenter (c : num * num) : State → State :=
  set (λ _, mkPartial (Some c) None None None None).

Definition setZoom (z : num) : State → State :=
  set (λ _, mkPartial None (Some z) None None None).

Definition toggleLayer (layer : Layers.key) : State → State :=
  set (λ state, mkPartial None None
                  (Some (Layers.toggle layer (layers state))) None None).

Definition addFeature (feature : AOIFeature num) : State → State :=
  set (λ state, mkPartial None None None
                  (Some (features state ++ [feature])) None).

Definition removeFeature (i : string) : State → State :=
  set (λ state, mkPartial None None None
                  (Some (filter (λ f, id f ≠ i) (features state))) None).

Definition updateFeature (i : string) (updates : FeatureUpdates)
  : State → State :=
  set (λ state, mkPartial None None None
                  (Some ((λ f, if decide (id f = i) then spread f updates else f)
                           <$> features state)) None).

Definition setSelectedFeature (feature : option (AOIFeature num))
  : State → State :=
  set (λ _, mkPartial None None None None (Some feature)).

Definition clearFeatures : State → State :=
  set (λ _, mkPartial None None None (Some []) None).

(** The fields of the state other than the feature list. *)
Definition frame (s : State)
  : (num * num) * num * Layers.t * option (AOIFeature num) :=
  (center s, zoom s, layers s, selectedFeature s).

(** The ids of the stored features, in list order. *)
Definition ids (s : State) : list string := id <$> features s.
End Store.

Arguments State num : clear implicits.
Arguments Partial num : clear implicits.
Arguments FeatureUpdates num : clear implicits.
End MapStore.

(* ===================================================================== *)
(** * JSON text ([JSON.parse]) *)
(* ===================================================================== *)

(** [JSON.parse] is a builtin of the host. Its grammar (ECMA-404) is embedded
    as a recursive-descent parser over the characters of the text. A string
    keeps its characters as written (escapes are checked, not decoded) and a
    number keeps its lexeme. *)
Module JSON.

Inductive value : Set :=
  | Null
  | Bool (b : bool)
  | Number (lexeme : string)
  | String (chars : string)
  | Array (elements : list value)
  | Object (members : list (string * value)).

Local Open Scope char_scope.

Definition is_whitespace (c : ascii) : bool :=
  bool_decide (c = " ") || bool_decide (c = "009") ||
  bool_decide (c = "010") || bool_decide (c = "013").

Definition is_digit (c : ascii) : bool :=
  let n := nat_of_ascii c in (48 <=? n)%nat && (n <=? 57)%nat.

Definition is_hex (c : ascii) : bool :=
  let n := nat_of_ascii c in
  is_digit c || ((65 <=? n)%nat && (n <=? 70)%nat)
             || ((97 <=? n)%nat && (n <=? 102)%nat).

Definition is_control (c : ascii) : bool := (nat_of_ascii c <? 32)%nat.

Definition is_simple_escape (c : ascii) : bool :=
  bool_decide (c ∈ ["034"; "\"; "/"; "b"; "f"; "n"; "r"; "t"]).

Fixpoint skip_whitespace (s : list ascii) : list ascii :=
  match s with
  | c :: rest => if is_whitespace c then skip_whitespace rest else s
  | [] => []
  end.

(** The characters of a string up to its closing quote, and what follows. *)
Fixpoint string_body (s : list ascii) : option (list ascii * list ascii) :=
  match s with
  | [] => None
  | "034" :: rest => Some ([], rest)
  | "\" :: "u" :: h1 :: h2 :: h3 :: h4 :: rest =>
      if is_hex h1 && is_hex h2 && is_hex h3 && is_hex h4
      then '(cs, rest') ← string_body rest;
           Some ("\" :: "u" :: h1 :: h2 :: h3 :: h4 :: cs, rest')
      else None
  | "\" :: c :: rest =>
      if is_simple_escape c
      then '(cs, rest') ← string_body rest; Some ("\" :: c :: cs, rest')
      else None
  | c :: rest =>
      if is_control c || bool_decide (c = "\") then None
      else '(cs, rest') ← string_body rest; Some (c :: cs, rest')
  end.

Fixpoint digits (s : list ascii) : list ascii * list ascii :=
  match s with
  | c :: rest =>
      if is_digit c then let '(ds, rest') := digits rest in (c :: ds, rest')
      else ([], s)
  | [] => ([], [])
  end.

(** At least one digit. *)
Definition digits1 (s : list ascii) : option (list ascii * list ascii) :=
  match digits s with
  | ([], _) => None
  | r => Some r
  end.

(** An optional minus sign; zero, or digits that do not start with zero; an
    optional fraction; an optional exponent. *)
Definition number (s : list ascii) : option (list ascii * list ascii) :=
  let '(sign, s) := match s with "-" :: s' => (["-"], s') | _ => ([], s) end in
  '(int, s) ← match s with
              | "0" :: s' => Some (["0"], s')
              | _ => digits1 s
              end;
  '(frac, s) ← match s with
               | "." :: s' => '(ds, s'') ← digits1 s'; Some ("." :: ds, s'')
               | _ => Some ([], s)
               end;
  '(exp, s) ← match s with
              | "e" :: "+" :: s' | "E" :: "+" :: s' =>
                  '(ds, s'') ← digits1 s'; Some ("e" :: "+" :: ds, s'')
              | "e" :: "-" :: s' | "E" :: "-" :: s' =>
                  '(ds, s'') ← digits1 s'; Some ("e" :: "-" :: ds, s'')
              | "e" :: s' | "E" :: s' =>
                  '(ds, s'') ← digits1 s'; Some ("e" :: ds, s'')
              | _ => Some ([], s)
              end;
  Some (sign ++ int ++ frac ++ exp, s).

(** A value, the elements of an array after its bracket, the members of an
    object after its brace. [fuel] bounds the nesting and the number of
    elements; [parse] below gives it the length of the text. *)
Fixpoint value_at (fuel : nat) (s : list ascii) : option (value * list ascii) :=
  match fuel with
  | O => None
  | S fuel =>
      match skip_whitespace s with
      | "n" :: "u" :: "l" :: "l" :: rest => Some (Null, rest)
      | "t" :: "r" :: "u" :: "e" :: rest => Some (Bool true, rest)
      | "f" :: "a" :: "l" :: "s" :: "e" :: rest => Some (Bool false, rest)
      | "034" :: rest =>
          '(cs, rest') ← string_body rest;
          Some (String (string_of_list_ascii cs), rest')
      | "[" :: rest =>
          match skip_whitespace rest with
          | "]" :: rest' => Some (Array [], rest')
          | _ => '(vs, rest') ← elements_at fuel rest; Some (Array vs, rest')
          end
      | "{" :: rest =>
          match skip_whitespace rest with
          | "}" :: rest' => Some (Object [], rest')
          | _ => '(ms, rest') ← members_at fuel rest; Some (Object ms, rest')
          end
      | s' =>
          '(lexeme, rest) ← number s';
          Some (Number (string_of_list_ascii lexeme), rest)
      end
  end
with elements_at (fuel : nat) (s : list ascii)
  : option (list value * list ascii) :=
  match fuel with
  | O => None
  | S fuel =>
      '(v, rest) ← value_at fuel s;
      match skip_whitespace rest with
      | "," :: rest' =>
          '(vs, rest'') ← elements_at fuel rest'; Some (v :: vs, rest'')
      | "]" :: rest' => Some ([v], rest')
      | _ => None
      end
  end
with members_at (fuel : nat) (s : list ascii)
  : option (list (string * value) * list ascii) :=
  match fuel with
  | O => None
  | S fuel =>
      match skip_whitespace s with
      | "034" :: rest =>
          '(key, rest) ← string_body rest;
          match skip_whitespace rest with
          | ":" :: rest =>
              '(v, rest) ← value_at fuel rest;
              let m := (string_of_list_ascii key, v) in
              match skip_whitespace rest with
              | "," :: rest' =>
                  '(ms, rest'') ← members_at fuel rest'; Some (m :: ms, rest'')
              | "}" :: rest' => Some ([m], rest')
              | _ => None
              end
          | _ => None
          end
      | _ => None
      end
  end.

(** [JSON.parse(text)]: one value, surrounded by whitespace only; anything
    else throws a [SyntaxError]. *)
Definition parse (text : string) : completion value :=
  let s := list_ascii_of_string text in
  match value_at (S (length s)) s with
  | Some (v, rest) =>
      match skip_whitespace rest with
      | [] => Normal v
      | _ => Throw SyntaxError
      end
  | None => Throw SyntaxError
  end.

End JSON.

(* ===================================================================== *)
(** * The map surface (Leaflet, as the components drive it) *)
(* ===================================================================== *)

Module Leaflet.
Section Surface.
Context {num : Type} `{JSNumber num}.

(** A layer as its factory call builds it; the path options are
    [{ color, fillOpacity: 0.3 }], of which only [color] varies. *)
Inductive Shape : Type :=
  | Polygon (latlngs : list (LatLng num)) (color : string)   (* L.polygon *)
  | Rectangle (bounds : list (LatLng num)) (color : string)  (* L.rectangle *)
  | Circle (center : LatLng num) (radius : num) (color : string) (* L.circle *)
  | Marker (pos : LatLng num).                               (* L.marker *)

(** A layer object: its shape, the [featureId] property that the container
    sets on it, and the popup bound to it. *)
Record Layer : Type := mkLayer {
  shape : Shape;
  featureId : option string;
  popup : option string;
}.

(** The identity of a layer object. Every factory call returns a new
    object; objects are numbered in the order of their creation, as the
    stamp that Leaflet gives each layer ([L.stamp]) numbers them. *)
Definition handle : Set := nat.

(** The mounted map: how many layer objects have been created so far, and
    the layers of the [drawnItems] feature group in the order of their
    insertion. *)
Record Surface : Type := mkSurface {
  created : nat;
  drawnItems : list (handle * Layer);
}.

(** A surface that has just been mounted: [new L.FeatureGroup()]. *)
Definition mounted : Surface := mkSurface 0 [].

(** [drawnItems.clearLayers()] *)
Definition clearLayers (s : Surface) : Surface :=
  mkSurface (created s) [].

(** A factory call followed by [drawnItems.addLayer(layer)]. *)
Definition addNewLayer (s : Surface) (layer : Layer) : Surface :=
  mkSurface (S (created s)) (drawnItems s ++ [(created s, layer)]).

(** The live layers, without their identities. *)
Definition layers (s : Surface) : list Layer := snd <$> drawnItems s.

Definition handles (s : Surface) : list handle := fst <$> drawnItems s.

(** The side table from feature ids to layer handles, read off the
    [featureId] properties of the live layers. *)
Definition bindings (s : Surface) : list (string * handle) :=
  omap (λ '(h, layer), (λ i, (i, h)) <$> featureId layer) (drawnItems s).

(** The layer that the restore effect builds for a feature. *)
Definition shape_of (feature : AOIFeature num) : Shape :=
  match coordinates feature with
  | PolygonCoords latlngs => Polygon latlngs (color feature)
  | RectangleCoords latlngs => Rectangle latlngs (color feature)
  | CircleCoords center radius => Circle center radius (color feature)
  | MarkerCoords pos => Marker pos
  end.
End Surface.

Arguments Shape num : clear implicits.
Arguments Layer num : clear implicits.
Arguments Surface num : clear implicits.
End Leaflet.

(* ===================================================================== *)
(** * [MapContainer.tsx]: the restore effect *)
(* ===================================================================== *)

Module MapContainer.
Section Restore.
Context {num : Type} `{JSNumber num}.

(** The popup markup of a feature ([createPopupContent]); its text
    formatting is not modelled. *)
Variable createPopupContent : AOIFeature num → string.

(** The body of [appState.features.forEach(...)]. *)
Definition restore_layer (feature : AOIFeature num) : Leaflet.Layer num := {|
  Leaflet.shape := Leaflet.shape_of feature;
  Leaflet.featureId := Some (id feature);
  Leaflet.popup := Some (createPopupContent feature);
|}.

(** The effect "Restore features from storage". [None] stands for the refs
    [drawnItemsRef.current] and [mapRef.current] being [null], in which case
    the effect returns at once. *)
Definition restoreFeatures (features : list (AOIFeature num))
    (refs : option (Leaflet.Surface num)) : option (Leaflet.Surface num) :=
  match refs with
  | None => None
  | Some s =>
      Some (foldl (λ s feature, Leaflet.addNewLayer s (restore_layer feature))
                  (Leaflet.clearLayers s) features)
  end.
End Restore.
End MapContainer.

(* ===================================================================== *)
(** * GeoJSON documents *)
(* ===================================================================== *)

Module GeoJSON.
Section Document.
Context {num : Type}.

(** A position is an array of numbers, longitude first. *)
Definition Position : Type := list num.

Inductive Geometry : Type :=
  | Point (coordinates : Position)
  | Polygon (coordinates : list (list Position)).

Record Properties : Type := mkProperties {
  id : string;
  name : string;
  type : FeatureType;
  area : option num;
  createdAt : string;
}.

Record Feature : Type := mkFeature {
  properties : Properties;
  geometry : Geometry;
}.

Record FeatureCollection : Type := mkCollection {
  features : list Feature;
}.
End Document.

Arguments Position num : clear implicits.
Arguments Geometry num : clear implicits.
Arguments Properties num : clear implicits.
Arguments Feature num : clear implicits.
Arguments FeatureCollection num : clear implicits.
End GeoJSON.

(* ===================================================================== *)
(** * The [App] component *)
(* ===================================================================== *)

Module App.

(** ** Persisted state *)

Section PersistedState.
(** The values that [JSON.parse] returns, the parser itself, and the value
    of the array literal [[]]. *)
Context {value : Type}.
Variable JSON_parse : string → completion value.
Variable empty_array : value.

(** [localStorage.getItem(key)]: the stored text, or [null]. *)
Definition getItem (localStorage : gmap string string) (key : string)
  : option string :=
  localStorage !! key.

(** The initializer of the [features] state:
    [const saved = localStorage.getItem('aoi-features');
     return saved ? JSON.parse(saved) : []].
    [null] and the empty string are the falsy values of [saved]. *)
Definition initial_features (localStorage : gmap string string)
  : completion value :=
  match getItem localStorage "aoi-features" with
  | None => Normal empty_array
  | Some saved =>
      if decide (saved = "") then Normal empty_array else JSON_parse saved
  end.
End PersistedState.

Section Features.
Context {num : Type} `{JSNumber num}.
Local Open Scope js_scope.

(** ** Updates of the feature list *)

(** [setFeatures(prev => [...prev, feature])] in the [draw:created]
    handler. *)
Definition appendFeature (feature : AOIFeature num)
    (prev : list (AOIFeature num)) : list (AOIFeature num) :=
  prev ++ [feature].

(** [removeFeature]: [setFeatures(prev => prev.filter(f => f.id !== id))]. *)
Definition removeFeature (i : string) (prev : list (AOIFeature num))
  : list (AOIFeature num) :=
  filter (λ f, id f ≠ i) prev.

(** ** The restore effect *)

(** The body of [features.forEach(...)]: no [featureId] and no popup are
    set here. *)
Definition restore_layer (feature : AOIFeature num) : Leaflet.Layer num := {|
  Leaflet.shape := Leaflet.shape_of feature;
  Leaflet.featureId := None;
  Leaflet.popup := None;
|}.

(** The effect "Restore features on map". *)
Definition restoreFeatures (features : list (AOIFeature num))
    (refs : option (Leaflet.Surface num)) : option (Leaflet.Surface num) :=
  match refs with
  | None => None
  | Some s =>
      Some (foldl (λ s feature, Leaflet.addNewLayer s (restore_layer feature))
                  (Leaflet.clearLayers s) features)
  end.

(** ** [exportGeoJSON] *)

(** The point pushed by iteration [i] of the circle loop:
    [angle = (i / 32) * 2 * Math.PI] and
    [[c.center[1] + (c.radius / (111320 * Math.cos(c.center[0] * Math.PI / 180))) * Math.sin(angle),
      c.center[0] + (c.radius / 111320) * Math.cos(angle)]]. *)
Definition circle_point (center : LatLng num) (radius : num) (i : nat)
  : GeoJSON.Position num :=
  let angle := lit (Z.of_nat i) / lit 32 * lit 2 * Math_PI in
  [ lng center
      + radius / (lit 111320 * Math_cos (lat center * Math_PI / lit 180))
        * Math_sin angle;
    lat center + radius / lit 111320 * Math_cos angle ].

(** [for (let i = 0; i <= 32; i++) { ... pts.push(...) }]; [n] counts the
    iterations that remain, [33 - i]. *)
Fixpoint circle_loop (center : LatLng num) (radius : num) (n i : nat)
    (pts : list (GeoJSON.Position num)) : list (GeoJSON.Position num) :=
  match n with
  | O => pts
  | S n' =>
      circle_loop center radius n' (S i) (pts ++ [circle_point center radius i])
  end.

Definition circle_ring (center : LatLng num) (radius : num)
  : list (GeoJSON.Position num) :=
  circle_loop center radius 33 0 [].

(** [[...coords.map(c => [c[1], c[0]]), [coords[0][1], coords[0][0]]]] *)
Definition polygon_ring (coords : list (LatLng num))
  : completion (list (GeoJSON.Position num)) :=
  first ← index coords 0;
  Normal (((λ c, [lng c; lat c]) <$> coords) ++ [[lng first; lat first]]).

Definition export_geometry (f : AOIFeature num)
  : completion (GeoJSON.Geometry num) :=
  match coordinates f with
  | MarkerCoords pos => Normal (GeoJSON.Point [lng pos; lat pos])
  | CircleCoords center radius =>
      Normal (GeoJSON.Polygon [circle_ring center radius])
  | PolygonCoords coords | RectangleCoords coords =>
      ring ← polygon_ring coords;
      Normal (GeoJSON.Polygon [ring])
  end.

Definition export_feature (f : AOIFeature num)
  : completion (GeoJSON.Feature num) :=
  geometry ← export_geometry f;
  Normal {|
    GeoJSON.properties := {|
      GeoJSON.id := id f;
      GeoJSON.name := name f;
      GeoJSON.type := type f;
      GeoJSON.area := area f;
      GeoJSON.createdAt := createdAt f;
    |};
    GeoJSON.geometry := geometry;
  |}.

(** [exportGeoJSON]: [None] when there is nothing to export (the handler
    shows 'No features to export' and returns), else the document that is
    serialized and downloaded. *)
Definition exportGeoJSON (features : list (AOIFeature num))
  : completion (option (GeoJSON.FeatureCollection num)) :=
  if decide (length features = 0%nat) then Normal None
  else
    fs ← mapM export_feature features;
    Normal (Some (GeoJSON.mkCollection fs)).

(** Modelled from the spec: the re-import of an exported ring, which the
    repository does not implement. It drops the closing point and transposes
    every position back to a [(lat, lng)] vertex. *)
Definition import_ring (ring : list (GeoJSON.Position num))
  : option (list (LatLng num)) :=
  mapM (λ p, match p with
             | [x; y] => Some (mkLatLng y x)
             | _ => None
             end)
       (take (length ring - 1)%nat ring).

(** The ring that the specification describes for a polygon: every stored
    vertex transposed, then the transposed first vertex once more. *)
Definition transposed_closed_ring (coords : list (LatLng num))
  : list (GeoJSON.Position num) :=
  match coords with
  | [] => []
  | first :: _ =>
      ((λ c, [lng c; lat c]) <$> coords) ++ [[lng first; lat first]]
  end.
End Features.
End App.

(* ===================================================================== *)
(** * Concrete inputs *)
(* ===================================================================== *)

(** Three vertices on one meridian: every edge has [dlng = 0]. *)
Definition meridian_triangle : list (LatLng R) :=
  [mkLatLng 0%R 10%R; mkLatLng 1%R 10%R; mkLatLng 2%R 10%R].

(** A marker at (12.9, 77.6), as the marker tool creates it. *)
Definition sample_marker : AOIFeature R := {|
  id := "lq2x9k3f";
  name := "AOI 1";
  coordinates := MarkerCoords (mkLatLng 12.9%R 77.6%R);
  area := None;
  color := "#ef4444";
  createdAt := "2024-01-01T00:00:00.000Z";
|}.

Definition sample_polygon : AOIFeature R := {|
  id := "lq2xa07c";
  name := "AOI 2";
  coordinates := PolygonCoords meridian_triangle;
  area := None;
  color := "#3b82f6";
  createdAt := "2024-01-01T00:05:00.000Z";
|}.

(** The store after the marker has been added to the initial state. *)
Definition store_with_marker : MapStore.State R :=
  MapStore.addFeature sample_marker (MapStore.initial 51.5074%R 7.4912%R).

(** A sine and a cosine on doubles that agree with the engine's at [+0] and
    at [2 * Math.PI]: [Math.sin(+0) = +0], [Math.cos(+0) = 1] and
    [Math.sin(6.283185307179586) = -2.4492935982947064e-16]. *)
Definition table_sin (x : float) : float :=
  if PrimFloat.eqb x 0x1.921fb54442d18p+2%float
  then (-0x1.1a62633145c07p-52)%float else 0%float.

Definition table_cos (x : float) : float := 1%float.

(* ===================================================================== *)
(** * Area formatting ([formatArea] and its copies) *)
(* ===================================================================== *)

Module Format.
Section Format.
Context {num : Type} `{JSNumber num}.
Local Open Scope js_scope.

(** [x.toFixed(digits)], the decimal text of a number; a builtin. *)
Variable toFixed : num → nat → string.

(** Whether a number is truthy ([ToBoolean]): neither zero nor [NaN]. *)
Variable truthy : num → bool.

(** [a < b], which is [b > a]. *)
Definition lt (a b : num) : bool := gt b a.

(** [mapUtils.ts], [formatArea]: [if ... else if ... else]. *)
Definition formatArea (sqMeters : num) : string :=
  if lt sqMeters (lit 10000) then toFixed sqMeters 0 +:+ " m²"
  else if lt sqMeters (lit 1000000)
       then toFixed (sqMeters / lit 10000) 2 +:+ " ha"
       else toFixed (sqMeters / lit 1000000) 2 +:+ " km²".

(** The copy in [App]: two guarded [return]s and a final [return]. [None]
    stands for falling through a guard. *)
Definition App_formatArea (sqMeters : num) : string :=
  let first := if lt sqMeters (lit 10000)
               then Some (toFixed sqMeters 0 +:+ " m²") else None in
  let second := if lt sqMeters (lit 1000000)
                then Some (toFixed (sqMeters / lit 10000) 2 +:+ " ha")
                else None in
  match first with
  | Some text => text
  | None =>
      match second with
      | Some text => text
      | None => toFixed (sqMeters / lit 1000000) 2 +:+ " km²"
      end
  end.

(** [formatAreaValue] of [createPopupContent] in [MapContainer.tsx];
    [area?: number] is [None] when it is [undefined]. *)
Definition formatAreaValue (area : option num) : string :=
  match area with
  | None => ""
  | Some a =>
      if negb (truthy a) then ""
      else if lt a (lit 10000) then toFixed a 0 +:+ " m²"
      else if lt a (lit 1000000) then toFixed (a / lit 10000) 2 +:+ " ha"
      else toFixed (a / lit 1000000) 2 +:+ " km²"
  end.
End Format.
End Format.

(* ===================================================================== *)
(** * Statistics of the analytics view *)
(* ===================================================================== *)

Module Analytics.
Section Stats.
Context {num : Type} `{JSNumber num}.
Local Open Scope js_scope.

(** Whether a number is truthy ([ToBoolean]): neither zero nor [NaN]. *)
Variable truthy : num → bool.

(** [features.filter(f => f.type === t).length] *)
Definition count_of (t : FeatureType) (features : list (AOIFeature num)) : nat :=
  length (filter (λ f, type f = t) features).

(** [f.area || 0] *)
Definition area_or_zero (f : AOIFeature num) : num :=
  match area f with
  | Some a => if truthy a then a else lit 0
  | None => lit 0
  end.

(** [features.reduce((sum, f) => sum + (f.area || 0), 0)] *)
Definition totalArea (features : list (AOIFeature num)) : num :=
  foldl (λ sum f, sum + area_or_zero f) (lit 0) features.

(** The predicate of [features.filter(f => f.area)]. *)
Definition has_area (f : AOIFeature num) : bool :=
  match area f with
  | Some a => truthy a
  | None => false
  end.

Definition featuresWithArea (features : list (AOIFeature num))
  : list (AOIFeature num) :=
  filter (λ f, has_area f = true) features.

(** [featuresWithArea.length > 0 ? totalArea / featuresWithArea.length : 0] *)
Definition avgArea (features : list (AOIFeature num)) : num :=
  if (0 <? length (featuresWithArea features))%nat
  then totalArea features
       / lit (Z.of_nat (length (featuresWithArea features)))
  else lit 0.

(** [x.toFixed(digits)], as in [Format]. *)
Variable toFixed : num → nat → string.

(** The text of an area statistic: [x > 0 ? formatArea(x) : '0 m²']. *)
Definition shown (x : num) : string :=
  if gt x (lit 0) then Format.formatArea toFixed x else "0 m²".
End Stats.
End Analytics.

(* ===================================================================== *)
(** * Notifications of [App] *)
(* ===================================================================== *)

Module Notifications.

(** [Notification] *)
Record Notification : Set := mkNotification {
  id : string;
  title : string;
  message : string;
  read : bool;
  timestamp : string;
}.

(** [{ ...n, read: true }] *)
Definition mark (n : Notification) : Notification :=
  mkNotification (id n) (title n) (message n) true (timestamp n).

(** [markNotificationRead]:
    [setNotifications(prev => prev.map(n => n.id === id ? { ...n, read: true } : n))] *)
Definition markNotificationRead (i : string) (prev : list Notification)
  : list Notification :=
  (λ n, if decide (id n = i) then mark n else n) <$> prev.

(** [clearAllNotifications]: [setNotifications([])] *)
Definition clearAllNotifications (prev : list Notification)
  : list Notification := [].

(** [unreadCount]: [notifications.filter(n => !n.read).length] *)
Definition unreadCount (notifications : list Notification) : nat :=
  length (filter (λ n, read n = false) notifications).

(** The notification that the [draw:created] handler puts in front of the
    list; [fresh_id] and [now] are the results of [generateId()] and
    [new Date().toISOString()], [feature_name] is [feature.name]. *)
Definition notifyCreated (fresh_id now feature_name : string)
    (prev : list Notification) : list Notification :=
  mkNotification fresh_id "New AOI Created"
    (feature_name +:+ " has been added to the map.") false now
  :: prev.
End Notifications.

(* ===================================================================== *)
(** * Drawing-tool activation *)
(* ===================================================================== *)

Module DrawTools.

(** A draw handler object ([L.Draw.Polygon] and the like): the shape it
    draws and whether it is enabled. *)
Record Handler : Set := mkHandler { tool : FeatureType; enabled : bool }.

(** [handler.disable()] *)
Definition disable (h : Handler) : Handler := mkHandler (tool h) false.

(** Every handler object constructed so far, by identity (its position),
    and the ref that holds the current one ([drawHandlerRef.current],
    [currentDrawHandlerRef.current]). *)
Record State : Set := mkState {
  handlers : list Handler;
  current : option nat;
}.

Definition initial : State := mkState [] None.

(** The cases of [switch (activeTool)]; any other string leaves [handler]
    at [null]. *)
Definition handler_kind (activeTool : string) : option FeatureType :=
  if decide (activeTool = "polygon") then Some polygon
  else if decide (activeTool = "rectangle") then Some rectangle
  else if decide (activeTool = "circle") then Some circle
  else if decide (activeTool = "marker") then Some marker
  else None.

(** The effect "Handle drawing tool activation", the same in [App] and in
    [MapContainer]. [mounted] says whether [mapRef.current] is set;
    [activeTool] is [string | null], [null] and the empty string being
    falsy. *)
Definition activate (mounted : bool) (activeTool : option string)
    (s : State) : State :=
  if negb mounted then s
  else
    let s1 :=
      match current s with
      | Some h => mkState (alter disable h (handlers s)) None
      | None => s
      end in
    match activeTool with
    | None => s1
    | Some t =>
        if decide (t = "") then s1
        else
          match handler_kind t with
          | None => s1
          | Some k =>
              mkState (handlers s1 ++ [mkHandler k true])
                      (Some (length (handlers s1)))
          end
    end.

(** [handleToolClick] of [DrawingTools], and the [onClick] of the tool
    buttons of [App]: [activeTool === toolId ? null : toolId]. *)
Definition handleToolClick (activeTool : option string) (toolId : string)
  : option string :=
  if decide (activeTool = Some toolId) then None else Some toolId.

(** No handler is enabled except the one that the ref holds. *)
Definition only_current_enabled (s : State) : Prop :=
  ∀ i h, handlers s !! i = Some h → enabled h = true → current s = Some i.

(** The effect run once for every entry of a history of renders, each with
    its [mounted] flag and its [activeTool]. *)
Definition run (history : list (bool * option string)) : State :=
  foldl (λ s step, activate step.1 step.2 s) initial history.
End DrawTools.

(* ===================================================================== *)
(** * Layer visibility *)
(* ===================================================================== *)

Module Visibility.

(** The effects "Handle layer visibility": with [layers] the set of the
    layers that the map has ([map.hasLayer]), by identity, and [layer] the
    tile layer or the feature group.
    [if (visible) { if (!map.hasLayer(layer)) map.addLayer(layer) }
     else { map.removeLayer(layer) }];
    [None] stands for a ref being [null], in which case the effect returns
    at once. *)
Definition showLayer (layer : nat) (visible : bool)
    (map : option (gset nat)) : option (gset nat) :=
  match map with
  | None => None
  | Some layers =>
      if visible
      then if decide (layer ∈ layers) then Some layers
           else Some ({[ layer ]} ∪ layers)
      else Some (layers ∖ {[ layer ]})
  end.
End Visibility.

(* ===================================================================== *)
(** * Saving to [localStorage] *)
(* ===================================================================== *)

Module Persistence.
Section Persistence.
Context {value : Type}.
Variable JSON_parse : string → completion value.
Variable JSON_stringify : value → string.

(** [localStorage.setItem(key, text)] *)
Definition setItem (key text : string) (localStorage : gmap string string)
  : gmap string string :=
  <[ key := text ]> localStorage.

(** The effect [localStorage.setItem('aoi-features', JSON.stringify(features))]. *)
Definition save_features (features : value)
    (localStorage : gmap string string) : gmap string string :=
  setItem "aoi-features" (JSON_stringify features) localStorage.

(** The effect
    [localStorage.setItem('notifications', JSON.stringify(notifications))]. *)
Definition save_notifications (notifications : value)
    (localStorage : gmap string string) : gmap string string :=
  setItem "notifications" (JSON_stringify notifications) localStorage.

(** The initializer of the [notifications] state; [defaults] is the array
    of the two welcome notifications. *)
Definition initial_notifications (defaults : value)
    (localStorage : gmap string string) : completion value :=
  match App.getItem localStorage "notifications" with
  | None => Normal defaults
  | Some saved =>
      if decide (saved = "") then Normal defaults else JSON_parse saved
  end.
End Persistence.
End Persistence.

(** A serializer of JSON values without indentation, as [JSON.stringify]
    with one argument writes them. *)
Fixpoint JSON_print (v : JSON.value) : string :=
  match v with
  | JSON.Null => "null"
  | JSON.Bool true => "true"
  | JSON.Bool false => "false"
  | JSON.Number lexeme => lexeme
  | JSON.String chars =>
      String "034" chars +:+ String "034" EmptyString
  | JSON.Array elements =>
      "[" +:+ String.concat "," (map JSON_print elements) +:+ "]"
  | JSON.Object members =>
      "{" +:+ String.concat ","
                (map (λ m, String "034" (fst m) +:+ String "034" ":"
                           +:+ JSON_print (snd m)) members)
          +:+ "}"
  end.

(** [layers[layer]], the toggle that a key names. *)
Definition layer_flag (layer : MapStore.Layers.key) (l : MapStore.Layers.t)
  : bool :=
  match layer with
  | MapStore.Layers.Wms => MapStore.Layers.wms l
  | MapStore.Layers.Drawing => MapStore.Layers.drawing l
  | MapStore.Layers.Features => MapStore.Layers.features l
  end.

(** A polygon or a rectangle whose vertex list is empty. *)
Definition has_no_vertex {num : Type} (f : AOIFeature num) : Prop :=
  coordinates f = PolygonCoords [] ∨ coordinates f = RectangleCoords [].

(** The stored form of the sample marker. *)
Definition sample_marker_json : JSON.value :=
  JSON.Array
    [JSON.Object
       [("id", JSON.String "lq2x9k3f");
        ("name", JSON.String "AOI 1");
        ("type", JSON.String "marker");
        ("coordinates", JSON.Array [JSON.Number "12.9"; JSON.Number "77.6"]);
        ("color", JSON.String "#ef4444");
        ("createdAt", JSON.String "2024-01-01T00:00:00.000Z")]].

(** A polygon feature without vertices, as a reload can produce it. *)
Definition empty_polygon : AOIFeature R :=
  mkFeature "lq2xb11d" "AOI 3" (PolygonCoords []) None "#3b82f6"
    "2024-01-01T00:10:00.000Z".

(* ===================================================================== *)
(** * Properties of the geometry engine *)
(* ===================================================================== *)

Lemma Rgt_bool_zero_zero : Rgt_bool 0 0 = false.
Proof. unfold Rgt_bool. destruct (Rlt_dec 0 0); [lra | reflexivity]. Qed.

Lemma bind_Normal {A B} (a : A) (k : A → completion B) :
  Normal a ≫= k = k a.
Proof. reflexivity. Qed.

Lemma index_Some {A} (xs : list A) (i : nat) (x : A) :
  xs !! i = Some x → index xs i = Normal x.
Proof. unfold index. by intros ->. Qed.

Lemma rotate_nat_add_1 (i l : nat) :
  rotate_nat_add 1 i l = ((i + 1) `mod` l)%nat.
Proof.
  unfold rotate_nat_add.
  change 1%Z with (Z.of_nat 1).
  rewrite <-Nat2Z.inj_add, <-Nat2Z.inj_mod, Nat2Z.id.
  f_equal. lia.
Qed.

Section GeometryProperties.
Context {num : Type} `{JSNumber num}.
Local Open Scope js_scope.

Lemma edges_length (pts : list (LatLng num)) :
  length (edges pts) = length pts.
Proof.
  unfold edges. rewrite length_zip_with_l_eq; [done|].
  by rewrite length_rotate.
Qed.

(** The edge that starts at vertex [i] ends at vertex [(i + 1) mod l]. *)
Lemma edges_lookup (pts : list (LatLng num)) (i : nat) (p1 p2 : LatLng num) :
  pts !! i = Some p1 →
  pts !! ((i + 1) `mod` length pts)%nat = Some p2 →
  edges pts !! i = Some (p1, p2).
Proof.
  intros H1 H2. unfold edges.
  apply lookup_zip_with_Some. exists p1, p2. split_and!; [done..|].
  rewrite lookup_rotate_r by (by eapply lookup_lt_Some).
  by rewrite rotate_nat_add_1.
Qed.

(** Loop invariant: with [n] iterations left at index [i], the loop adds
    the terms of the edges from [i] on to [total], in order. *)
Lemma area_loop_sum (pts : list (LatLng num)) (n i : nat) (total : num) :
  (i + n)%nat = length pts →
  area_loop pts (length pts) n i total =
  Normal (foldl add total (spherical_excess_term <$> drop i (edges pts))).
Proof.
  revert i total. induction n as [|n IH]; intros i total Hlen; simpl.
  - rewrite drop_ge; [done|]. rewrite edges_length. lia.
  - destruct (lookup_lt_is_Some_2 pts i) as [p1 Hp1]; [lia|].
    destruct (lookup_lt_is_Some_2 pts ((i + 1) `mod` length pts)) as [p2 Hp2].
    { apply Nat.mod_upper_bound. lia. }
    rewrite (index_Some _ _ _ Hp1), bind_Normal.
    rewrite (index_Some _ _ _ Hp2), bind_Normal.
    rewrite IH by lia.
    by rewrite (drop_S _ _ _ (edges_lookup _ _ _ _ Hp1 Hp2)).
Qed.

(** The loop computes the formula, and never throws. *)
Lemma calculatePolygonArea_eq (pts : list (LatLng num)) :
  calculatePolygonArea pts = Normal (polygonArea_formula pts).
Proof.
  unfold calculatePolygonArea, polygonArea_formula.
  destruct (length pts <? 3)%nat; [done|].
  rewrite area_loop_sum by done.
  by rewrite bind_Normal, drop_0.
Qed.

(** C2. [calculatePolygonArea] returns, for a sequence of at least three
    points, the absolute value of the sum over the consecutive edges
    [(p1, p2)] (the last point joined to the first) of
    [dlng_rad * (2 + sin lat1_rad + sin lat2_rad)], scaled by the square of
    R = 6378137 and halved; for fewer than three points it returns 0. It
    never throws. This holds in every arithmetic, that of doubles included:
    the sum is taken from zero in edge order, a degree [x] is converted as
    [x * pi / 180], and the scaling is [sum * R * R / 2]. *)
Theorem calculatePolygonArea_formula (pts : list (LatLng num)) :
  calculatePolygonArea pts =
  Normal
    (if (length pts <? 3)%nat then lit 0
     else Math_abs
            (sum_terms
               ((λ e, deg_to_rad (lng e.2 - lng e.1)
                      * (lit 2 + Math_sin (deg_to_rad (lat e.1))
                               + Math_sin (deg_to_rad (lat e.2))))
                <$> zip pts (rotate 1 pts))
             * lit 6378137 * lit 6378137 / lit 2)).
Proof. apply calculatePolygonArea_eq. Qed.

Lemma calculatePolygonArea_degenerate (pts : list (LatLng num)) :
  (length pts < 3)%nat → calculatePolygonArea pts = Normal (lit 0).
Proof.
  intros Hlt. unfold calculatePolygonArea.
  by rewrite (proj2 (Nat.ltb_lt _ _) Hlt).
Qed.
End GeometryProperties.

(** ** The formula over the real numbers *)

Lemma foldl_Rplus (ts : list R) (a : R) :
  foldl Rplus a ts = (a + Rsum ts)%R.
Proof.
  revert a. induction ts as [|t ts IH]; intros a; simpl.
  - lra.
  - rewrite IH. lra.
Qed.

(** Over the reals the scaling reads R^2 / 2 times the sum, and the term of
    an edge is [dlng * pi / 180 * (2 + sin (lat1 * pi / 180)
    + sin (lat2 * pi / 180))]. *)
Lemma polygonArea_formula_real (pts : list (LatLng R)) :
  polygonArea_formula pts =
  if (length pts <? 3)%nat then 0%R
  else Rabs (6378137 * 6378137 / 2 *
             Rsum ((λ e, (lng e.2 - lng e.1) * PI / 180 *
                         (2 + sin (lat e.1 * PI / 180)
                            + sin (lat e.2 * PI / 180)))
                   <$> edges pts))%R.
Proof.
  unfold polygonArea_formula.
  destruct (length pts <? 3)%nat; [done|].
  unfold sum_terms, EARTH_RADIUS. simpl.
  rewrite foldl_Rplus. f_equal.
  unfold spherical_excess_term, deg_to_rad. simpl.
  lra.
Qed.

(** The edges of a triangle. *)
Example edges_triangle (a b c : LatLng R) :
  edges [a; b; c] = [(a, b); (b, c); (c, a)].
Proof. reflexivity. Qed.

(* ===================================================================== *)
(** * Properties of feature creation *)
(* ===================================================================== *)

Section CreationProperties.
Context {num : Type} `{JSNumber num}.
Local Open Scope js_scope.

Lemma createFeatureFromLayer_area fresh_id now layer name n :
  ∃ f, createFeatureFromLayer fresh_id now layer name n = Normal f
       ∧ type f = layerType layer
       ∧ area f = created_area layer.
Proof.
  unfold createFeatureFromLayer, created_area, positive_or_undefined.
  destruct layer as [pts|pts|c r|p]; simpl;
    rewrite ?calculatePolygonArea_eq, ?bind_Normal;
    eexists; (split; [reflexivity|]); simpl; (split; [reflexivity|]);
    try reflexivity.
  by rewrite gt_zero_zero.
Qed.

Lemma App_drawCreated_area fresh_id now layer n :
  ∃ f, App_drawCreated fresh_id now layer n = Normal f
       ∧ type f = layerType layer
       ∧ area f = created_area layer.
Proof.
  unfold App_drawCreated, created_area, positive_or_undefined.
  destruct layer as [pts|pts|c r|p]; simpl;
    rewrite ?calculatePolygonArea_eq, ?bind_Normal;
    eexists; (split; [reflexivity|]); simpl; (split; [reflexivity|]);
    try reflexivity.
  by rewrite gt_zero_zero.
Qed.

(** C6, as amended. Creation never throws, and the [area] property of the
    created feature is present exactly when the drawn layer is a polygon, a
    rectangle or a circle whose computed area is greater than zero; it is
    absent for every marker. Both constructions, the one of [mapUtils.ts]
    and the one inlined in [App], agree on this. *)
Theorem created_feature_area fresh_id now (layer : DrawnLayer num) name n :
  ∃ f g,
    createFeatureFromLayer fresh_id now layer name n = Normal f
    ∧ App_drawCreated fresh_id now layer n = Normal g
    ∧ type f = layerType layer ∧ type g = layerType layer
    ∧ area f = created_area layer ∧ area g = created_area layer
    ∧ (layerType layer = marker → area f = None)
    ∧ (is_Some (area f) ↔
         ∃ a, geometric_area layer = Some a ∧ gt a (lit 0) = true).
Proof.
  destruct (createFeatureFromLayer_area fresh_id now layer name n)
    as (f & Hf & Htf & Haf).
  destruct (App_drawCreated_area fresh_id now layer n) as (g & Hg & Htg & Hag).
  exists f, g. split_and!; try done.
  - rewrite Haf. by destruct layer.
  - rewrite Haf. unfold created_area.
    destruct (geometric_area layer) as [a|]; simpl.
    + destruct (gt a (lit 0)) eqn:Hgt; split.
      * intros _. by exists a.
      * by intros _.
      * by intros [? ?].
      * intros (a' & [= <-] & ?). congruence.
    + split; [by intros [? ?]|by intros (? & ? & _)].
Qed.
End CreationProperties.

Lemma meridian_triangle_area :
  calculatePolygonArea meridian_triangle = Normal 0%R.
Proof.
  rewrite calculatePolygonArea_eq, polygonArea_formula_real.
  f_equal. simpl.
  replace (_ * _)%R with 0%R; [apply Rabs_R0|].
  unfold Rsum. simpl. lra.
Qed.

(** C6, counterexample: a polygon feature created without an [area]. The
    drawn polygon has three vertices, all of longitude 10; its computed area
    is 0, and [area > 0 ? area : undefined] leaves the property out. *)
Lemma polygon_created_without_area :
  createFeatureFromLayer "k1" "2024-01-01T00:00:00.000Z"
    (DrawnPolygon meridian_triangle) "" 0
  = Normal {|
      id := "k1";
      name := "AOI 1";
      coordinates := PolygonCoords meridian_triangle;
      area := None;
      color := "#3b82f6";
      createdAt := "2024-01-01T00:00:00.000Z";
    |}.
Proof.
  unfold createFeatureFromLayer.
  rewrite meridian_triangle_area. simpl.
  unfold positive_or_undefined.
  replace (gt 0%R (lit 0)) with false; [done|].
  symmetry. apply Rgt_bool_zero_zero.
Qed.

(* ===================================================================== *)
(** * Properties of the export *)
(* ===================================================================== *)

Section ExportProperties.
Context {num : Type} `{JSNumber num}.
Local Open Scope js_scope.

Lemma polygon_ring_nonempty (first : LatLng num) (rest : list (LatLng num)) :
  App.polygon_ring (first :: rest) =
  Normal (App.transposed_closed_ring (first :: rest)).
Proof. reflexivity. Qed.

(** An empty vertex list makes [coords[0][1]] throw. *)
Lemma polygon_ring_empty :
  App.polygon_ring (num := num) [] = Throw TypeError.
Proof. reflexivity. Qed.

Lemma mapM_transpose_back (coords : list (LatLng num)) :
  mapM (λ p : GeoJSON.Position num,
          match p with
          | [x; y] => Some (mkLatLng y x)
          | _ => None
          end)
       ((λ c, [lng c; lat c]) <$> coords)
  = Some coords.
Proof.
  apply mapM_fmap_Some. by intros [la lo].
Qed.

Lemma import_transposed_closed_ring (coords : list (LatLng num)) :
  App.import_ring (App.transposed_closed_ring coords) = Some coords.
Proof.
  unfold App.import_ring, App.transposed_closed_ring.
  destruct coords as [|first rest]; [done|].
  rewrite length_app, length_fmap. simpl length.
  replace (S (length rest) + 1 - 1)%nat
    with (length ((λ c : LatLng num, [lng c; lat c]) <$> first :: rest))
    by (rewrite length_fmap; simpl; lia).
  rewrite take_app_length.
  apply mapM_transpose_back.
Qed.

(** C3. For a polygon or rectangle feature with at least one vertex, the
    exported geometry is a Polygon whose single ring is the stored vertices,
    each transposed from [(lat, lng)] to [[lng, lat]], followed by the
    transposed first vertex; dropping the closing point of that ring and
    transposing back gives the stored vertex sequence again. *)
Theorem export_polygon_ring_roundtrip (f : AOIFeature num)
    (coords : list (LatLng num)) (first : LatLng num) :
  coordinates f = PolygonCoords coords ∨ coordinates f = RectangleCoords coords →
  head coords = Some first →
  ∃ ring,
    App.export_geometry f = Normal (GeoJSON.Polygon [ring])
    ∧ ring = ((λ c, [lng c; lat c]) <$> coords) ++ [[lng first; lat first]]
    ∧ last ring = head ring
    ∧ App.import_ring ring = Some coords.
Proof.
  intros Hf Hhead.
  destruct coords as [|first' rest]; [done|].
  injection Hhead as ->.
  exists (App.transposed_closed_ring (first :: rest)).
  split_and!.
  - unfold App.export_geometry. by destruct Hf as [-> | ->].
  - done.
  - unfold App.transposed_closed_ring. by rewrite last_snoc.
  - apply import_transposed_closed_ring.
Qed.

(** The circle loop pushes the points of the indices [i], [i + 1], ... in
    order. *)
Lemma circle_loop_points (center : LatLng num) (radius : num) (n i : nat)
    (pts : list (GeoJSON.Position num)) :
  App.circle_loop center radius n i pts =
  pts ++ (App.circle_point center radius <$> seq i n).
Proof.
  revert i pts. induction n as [|n IH]; intros i pts; simpl.
  - by rewrite app_nil_r.
  - rewrite IH. by rewrite <-app_assoc.
Qed.

(** The ring of a circle: 33 points, the one of index [i] at the angle
    [(i / 32) * 2 * pi], so that the indices 0 to 31 sample 32 equally spaced
    angles and the index 32 is computed at the angle [(32 / 32) * 2 * pi]. *)
Lemma circle_ring_points (center : LatLng num) (radius : num) :
  App.circle_ring center radius = App.circle_point center radius <$> seq 0 33.
Proof. unfold App.circle_ring. by rewrite circle_loop_points. Qed.

Lemma circle_ring_length (center : LatLng num) (radius : num) :
  length (App.circle_ring center radius) = 33%nat.
Proof. by rewrite circle_ring_points, length_fmap, length_seq. Qed.

Lemma circle_ring_lookup (center : LatLng num) (radius : num) (i : nat) :
  (i < 33)%nat →
  App.circle_ring center radius !! i = Some (App.circle_point center radius i).
Proof.
  intros Hi. rewrite circle_ring_points, list_lookup_fmap.
  by rewrite lookup_seq_lt.
Qed.

Lemma circle_ring_head (center : LatLng num) (radius : num) :
  head (App.circle_ring center radius)
  = Some (App.circle_point center radius 0).
Proof. by rewrite circle_ring_points. Qed.

Lemma circle_ring_last (center : LatLng num) (radius : num) :
  last (App.circle_ring center radius)
  = Some (App.circle_point center radius 32).
Proof.
  rewrite last_lookup, circle_ring_length.
  apply circle_ring_lookup. simpl. lia.
Qed.
End ExportProperties.

(** Over the real numbers the ring of a circle is closed: [sin] and [cos]
    take the same values at [0] and at [2 * pi]. *)
Lemma circle_ring_closed_real (center : LatLng R) (radius : R) :
  last (App.circle_ring center radius) = head (App.circle_ring center radius).
Proof.
  rewrite circle_ring_last, circle_ring_head. f_equal.
  unfold App.circle_point. simpl.
  change (Z.of_nat 32) with 32%Z. change (Z.of_nat 0) with 0%Z.
  replace (32 / 32 * 2 * PI)%R with (2 * PI)%R by lra.
  replace (0 / 32 * 2 * PI)%R with 0%R by lra.
  by rewrite sin_2PI, cos_2PI, sin_0, cos_0.
Qed.

(** ** The ring of a circle in double arithmetic *)

Lemma float_angle_first :
  (float_lit (Z.of_nat 0) / float_lit 32 * float_lit 2 * float_PI)%float
  = 0%float.
Proof. vm_compute. reflexivity. Qed.

(** [(32 / 32) * 2 * Math.PI] is the double [6.283185307179586]. *)
Lemma float_angle_last :
  (float_lit (Z.of_nat 32) / float_lit 32 * float_lit 2 * float_PI)%float
  = 0x1.921fb54442d18p+2%float.
Proof. vm_compute. reflexivity. Qed.

Lemma float_equator_radians :
  (0 * float_PI / float_lit 180)%float = 0%float.
Proof. vm_compute. reflexivity. Qed.

Section CircleRingOfDoubles.
(** [Math.sin] and [Math.cos] of the engine. ECMAScript fixes
    [Math.sin(+0)] to [+0] and [Math.cos(+0)] to [1]. The double nearest to
    [2 * pi] lies below it by about 2.4e-16, and so does its sine lie below
    zero: [Math.sin(2 * Math.PI)] is [-2.4492935982947064e-16]. *)
Variables fsin fcos : float → float.
Hypothesis sin_zero : fsin 0%float = 0%float.
Hypothesis cos_zero : fcos 0%float = 1%float.
Hypothesis sin_two_pi :
  fsin 0x1.921fb54442d18p+2%float = (-0x1.1a62633145c07p-52)%float.

(** C7, at a failing input. The exported ring of the circle of radius
    1000 m centred at latitude 0, longitude 0 has 33 points; its first point
    has longitude [0], its last point has longitude
    [-2.2002278101820933e-18]: the ring is not closed. *)
Theorem circle_ring_of_doubles_not_closed :
  let ring :=
    App.circle_ring (H := float_number fsin fcos)
      (mkLatLng 0%float 0%float) 1000%float in
  ∃ first_point last_point : GeoJSON.Position float,
    length ring = 33%nat
    ∧ head ring = Some first_point
    ∧ last ring = Some last_point
    ∧ first_point !! 0%nat = Some 0%float
    ∧ last_point !! 0%nat = Some (-0x1.44b241ab8c163p-59)%float
    ∧ last ring ≠ head ring.
Proof using sin_zero cos_zero sin_two_pi.
  intros ring.
  assert (Hfirst : head ring = Some
            (App.circle_point (H := float_number fsin fcos)
               (mkLatLng 0%float 0%float) 1000%float 0)).
  { apply circle_ring_head. }
  assert (Hlast : last ring = Some
            (App.circle_point (H := float_number fsin fcos)
               (mkLatLng 0%float 0%float) 1000%float 32)).
  { apply circle_ring_last. }
  assert (Hlng0 : App.circle_point (H := float_number fsin fcos)
                    (mkLatLng 0%float 0%float) 1000%float 0 !! 0%nat
                  = Some 0%float).
  { unfold App.circle_point. cbn -[float_lit float_PI Z.of_nat].
    rewrite float_angle_first, float_equator_radians, sin_zero, cos_zero.
    vm_compute. reflexivity. }
  assert (Hlng32 : App.circle_point (H := float_number fsin fcos)
                     (mkLatLng 0%float 0%float) 1000%float 32 !! 0%nat
                   = Some (-0x1.44b241ab8c163p-59)%float).
  { unfold App.circle_point. cbn -[float_lit float_PI Z.of_nat].
    rewrite float_angle_last, float_equator_radians, sin_two_pi, cos_zero.
    vm_compute. reflexivity. }
  eexists _, _. split_and!; [apply circle_ring_length|done..|].
  rewrite Hfirst, Hlast. intros Heq.
  assert (Hlng : Some (-0x1.44b241ab8c163p-59)%float = Some 0%float).
  { rewrite <-Hlng32, <-Hlng0. congruence. }
  apply (f_equal (λ o, match o with
                       | Some x => PrimFloat.ltb x 0%float
                       | None => false
                       end)) in Hlng.
  vm_compute in Hlng. discriminate.
Qed.
End CircleRingOfDoubles.

(** C7 with the tabulated sine and cosine. *)
Lemma circle_ring_of_doubles_not_closed_witness :
  table_sin 0%float = 0%float
  ∧ table_cos 0%float = 1%float
  ∧ table_sin 0x1.921fb54442d18p+2%float = (-0x1.1a62633145c07p-52)%float
  ∧ ∃ first_point last_point : GeoJSON.Position float,
      length (App.circle_ring (H := float_number table_sin table_cos)
                (mkLatLng 0%float 0%float) 1000%float) = 33%nat
      ∧ head (App.circle_ring (H := float_number table_sin table_cos)
                (mkLatLng 0%float 0%float) 1000%float) = Some first_point
      ∧ last (App.circle_ring (H := float_number table_sin table_cos)
                (mkLatLng 0%float 0%float) 1000%float) = Some last_point
      ∧ first_point !! 0%nat = Some 0%float
      ∧ last_point !! 0%nat = Some (-0x1.44b241ab8c163p-59)%float
      ∧ last (App.circle_ring (H := float_number table_sin table_cos)
                (mkLatLng 0%float 0%float) 1000%float)
        ≠ head (App.circle_ring (H := float_number table_sin table_cos)
                  (mkLatLng 0%float 0%float) 1000%float).
Proof.
  split; [reflexivity|]. split; [reflexivity|]. split; [reflexivity|].
  exact (circle_ring_of_doubles_not_closed table_sin table_cos
           eq_refl eq_refl eq_refl).
Defined.

(* ===================================================================== *)
(** * Properties of the feature store *)
(* ===================================================================== *)

Section StoreProperties.
Context {num : Type} `{JSNumber num}.
Import MapStore.

(** An updater that returns only [features] leaves the other fields as
    they were. *)
Lemma set_features_frame (updater : State num → list (AOIFeature num))
    (s : State num) :
  frame (set (λ state, mkPartial None None None (Some (updater state)) None) s)
  = frame s.
Proof. reflexivity. Qed.

Lemma set_features (updater : State num → list (AOIFeature num))
    (s : State num) :
  features (set (λ state, mkPartial None None None (Some (updater state)) None) s)
  = updater s.
Proof. reflexivity. Qed.

(** A state is its feature list and its frame. *)
Lemma state_eq (s t : State num) :
  features s = features t → frame s = frame t → s = t.
Proof.
  destruct s, t. unfold frame. simpl. intros -> [= -> -> -> ->]. done.
Qed.

Lemma filter_other_ids (i : string) (l : list (AOIFeature num)) :
  i ∉ id <$> l → filter (λ f, id f ≠ i) l = l.
Proof.
  intros Hi. induction l as [|f l IH]; [done|].
  rewrite fmap_cons, not_elem_of_cons in Hi. destruct Hi as [Hf Hl].
  rewrite filter_cons_True by done. by rewrite IH.
Qed.

(** With pairwise distinct ids, filtering out the id of [f] removes [f] and
    nothing else. *)
Lemma filter_unique_id (l1 l2 : list (AOIFeature num)) (f : AOIFeature num) :
  NoDup (id <$> (l1 ++ f :: l2)) →
  filter (λ g, id g ≠ id f) (l1 ++ f :: l2) = l1 ++ l2.
Proof.
  rewrite fmap_app, fmap_cons. intros Hnd.
  apply NoDup_app in Hnd as (_ & Hdisj & Hnd2).
  apply NoDup_cons in Hnd2 as [Hf2 _].
  rewrite filter_app, filter_cons_False by (intros Hne; by apply Hne).
  rewrite !filter_other_ids; [done|done|].
  intros Hin. apply (Hdisj _ Hin). left.
Qed.

Lemma rename_other_ids (i : string) (updates : FeatureUpdates num)
    (l : list (AOIFeature num)) :
  i ∉ id <$> l →
  (λ f, if decide (id f = i) then spread f updates else f) <$> l = l.
Proof.
  intros Hi. induction l as [|f l IH]; [done|].
  rewrite fmap_cons, not_elem_of_cons in Hi. destruct Hi as [Hf Hl].
  rewrite fmap_cons, IH by done.
  by rewrite decide_False by done.
Qed.

(** C5, as amended. [addFeature] appends the feature in every state: there
    is no check of its id. The ids of the new list are pairwise distinct
    exactly when those of the old list were and the id of the added feature
    was not among them. The list update of [App] is the same append. *)
Theorem addFeature_appends (f : AOIFeature num) (s : State num) :
  features (addFeature f s) = features s ++ [f]
  ∧ App.appendFeature f (features s) = features s ++ [f]
  ∧ (NoDup (ids (addFeature f s)) ↔ NoDup (ids s) ∧ id f ∉ ids s).
Proof.
  split_and!; [done..|].
  unfold ids. change (features (addFeature f s)) with (features s ++ [f]).
  rewrite fmap_app, NoDup_app. simpl. split.
  - intros (Hnd & Hdisj & _). split; [done|].
    intros Hin. apply (Hdisj _ Hin). left.
  - intros [Hnd Hf]. split_and!; [done| |apply NoDup_singleton].
    intros x Hx ->%list_elem_of_singleton. done.
Qed.

(** C8, as amended. [updateFeature id { name }] replaces the name, and only
    the name, of every feature whose id is [id] and keeps the other features;
    the ids and the rest of the state stay as they were. When no feature has
    that id the state is returned unchanged: the action has no failure
    outcome. *)
Theorem updateFeature_name (i new_name : string) (s : State num) :
  features (updateFeature i (only_name new_name) s)
  = (λ f, if decide (id f = i)
          then {| id := id f; name := new_name;
                  coordinates := coordinates f; area := area f;
                  color := color f; createdAt := createdAt f |}
          else f) <$> features s
  ∧ ids (updateFeature i (only_name new_name) s) = ids s
  ∧ frame (updateFeature i (only_name new_name) s) = frame s
  ∧ (i ∉ ids s → updateFeature i (only_name new_name) s = s).
Proof.
  split_and!.
  - done.
  - unfold ids, updateFeature. rewrite set_features, <-list_fmap_compose.
    apply list_fmap_ext. intros k f _. simpl. by destruct (decide _).
  - done.
  - intros Hi. apply state_eq; [|done].
    unfold updateFeature. rewrite set_features. by apply rename_other_ids.
Qed.

(** C9. [removeFeature id] returns the state unchanged when no feature has
    that id; when the feature [f] of the list has it, the ids of the list
    being pairwise distinct, the new list is the old one without [f]. In
    every state the features that stay are those of another id, in their
    order, and the rest of the state is kept. The action always completes:
    it is a function of the state. The list update of [App] is the same
    filter. *)
Theorem removeFeature_spec (i : string) (s : State num) :
  (i ∉ ids s →
     removeFeature i s = s ∧ App.removeFeature i (features s) = features s)
  ∧ (∀ l1 f l2,
       features s = l1 ++ f :: l2 → id f = i → NoDup (ids s) →
       features (removeFeature i s) = l1 ++ l2
       ∧ App.removeFeature i (features s) = l1 ++ l2)
  ∧ (∀ f, f ∈ features (removeFeature i s) ↔ f ∈ features s ∧ id f ≠ i)
  ∧ features (removeFeature i s) `sublist_of` features s
  ∧ frame (removeFeature i s) = frame s
  ∧ App.removeFeature i (features s) = features (removeFeature i s).
Proof.
  split_and!.
  - intros Hi. split.
    + apply state_eq; [|done].
      unfold removeFeature. rewrite set_features. by apply filter_other_ids.
    + by apply filter_other_ids.
  - intros l1 f l2 Hs <- Hnd. unfold ids in Hnd. rewrite Hs in Hnd.
    unfold removeFeature, App.removeFeature. rewrite set_features, Hs.
    split; by apply filter_unique_id.
  - intros f. unfold removeFeature. rewrite set_features, list_elem_of_filter.
    tauto.
  - unfold removeFeature. rewrite set_features. apply sublist_filter.
  - done.
  - done.
Qed.

(** C10. Each action on the feature list leaves [center], [zoom], [layers]
    and [selectedFeature] as they were. *)
Theorem feature_actions_frame (f : AOIFeature num) (i : string)
    (updates : FeatureUpdates num) (s : State num) :
  frame (addFeature f s) = frame s
  ∧ frame (removeFeature i s) = frame s
  ∧ frame (updateFeature i updates s) = frame s
  ∧ frame (clearFeatures s) = frame s.
Proof.
  unfold addFeature, removeFeature, updateFeature, clearFeatures.
  split_and!; apply set_features_frame.
Qed.
End StoreProperties.

(** ** The store at concrete states *)

(** C5, counterexample: adding a feature whose id is already in the store
    does not fail; it yields a list with that id twice. *)
Lemma addFeature_duplicates_id :
  MapStore.features (MapStore.addFeature sample_marker store_with_marker)
  = [sample_marker; sample_marker]
  ∧ ¬ NoDup (MapStore.ids (MapStore.addFeature sample_marker store_with_marker)).
Proof.
  split; [reflexivity|].
  intros Hnd. change (NoDup ["lq2x9k3f"; "lq2x9k3f"]) in Hnd.
  apply NoDup_cons in Hnd as [Hin _]. apply Hin. left.
Qed.

(** C5 at the store that holds the marker, the polygon being added. *)
Lemma addFeature_appends_witness :
  MapStore.features (MapStore.addFeature sample_polygon store_with_marker)
  = MapStore.features store_with_marker ++ [sample_polygon]
  ∧ App.appendFeature sample_polygon (MapStore.features store_with_marker)
    = MapStore.features store_with_marker ++ [sample_polygon]
  ∧ (NoDup (MapStore.ids (MapStore.addFeature sample_polygon store_with_marker))
     ↔ NoDup (MapStore.ids store_with_marker)
       ∧ id sample_polygon ∉ MapStore.ids store_with_marker).
Proof. exact (addFeature_appends sample_polygon store_with_marker). Defined.

(** C8, counterexample: renaming under an id that no feature has returns
    the store as it was; nothing is reported. *)
Lemma updateFeature_unknown_id_silent :
  ("nonexistent" ∉ MapStore.ids store_with_marker)
  ∧ MapStore.updateFeature "nonexistent" (MapStore.only_name "Harbour")
      store_with_marker
    = store_with_marker.
Proof.
  split; [|reflexivity].
  change (MapStore.ids store_with_marker) with ["lq2x9k3f"].
  by intros [=]%list_elem_of_singleton.
Qed.

(** C8 at the store that holds the marker: its name is replaced, and an
    unknown id changes nothing. *)
Lemma updateFeature_name_witness :
  MapStore.features
    (MapStore.updateFeature "lq2x9k3f" (MapStore.only_name "Harbour")
       store_with_marker)
  = [ {| id := "lq2x9k3f"; name := "Harbour";
         coordinates := MarkerCoords (mkLatLng 12.9%R 77.6%R);
         area := None; color := "#ef4444";
         createdAt := "2024-01-01T00:00:00.000Z" |} ]
  ∧ ("nonexistent" ∉ MapStore.ids store_with_marker →
     MapStore.updateFeature "nonexistent" (MapStore.only_name "Harbour")
       store_with_marker = store_with_marker).
Proof.
  split.
  - exact (proj1 (updateFeature_name "lq2x9k3f" "Harbour" store_with_marker)).
  - exact (proj2 (proj2 (proj2
      (updateFeature_name "nonexistent" "Harbour" store_with_marker)))).
Defined.

(** C9 at the store that holds the marker alone, and at the store that holds
    the marker and the polygon. *)
Lemma removeFeature_spec_witness :
  ("nonexistent" ∉ MapStore.ids store_with_marker)
  ∧ MapStore.removeFeature "nonexistent" store_with_marker = store_with_marker
  ∧ NoDup (MapStore.ids (MapStore.addFeature sample_polygon store_with_marker))
  ∧ MapStore.features
      (MapStore.removeFeature "lq2x9k3f"
         (MapStore.addFeature sample_polygon store_with_marker))
    = [sample_polygon].
Proof.
  assert (Hnotin : "nonexistent" ∉ MapStore.ids store_with_marker).
  { change (MapStore.ids store_with_marker) with ["lq2x9k3f"].
    by intros [=]%list_elem_of_singleton. }
  assert (Hnd : NoDup (MapStore.ids
                  (MapStore.addFeature sample_polygon store_with_marker))).
  { change (NoDup ["lq2x9k3f"; "lq2xa07c"]).
    apply NoDup_cons. split; [|apply NoDup_singleton].
    by intros [=]%list_elem_of_singleton. }
  split; [exact Hnotin|]. split; [|split; [exact Hnd|]].
  - exact (proj1 (proj1 (removeFeature_spec "nonexistent" store_with_marker)
                    Hnotin)).
  - exact (proj1 (proj1 (proj2 (removeFeature_spec "lq2x9k3f"
                    (MapStore.addFeature sample_polygon store_with_marker)))
                    [] sample_marker [sample_polygon] eq_refl eq_refl Hnd)).
Defined.

(* ===================================================================== *)
(** * Properties of the persisted state *)
(* ===================================================================== *)

Section PersistedStateProperties.
Context {value : Type}.
Variable JSON_parse : string → completion value.
Variable empty_array : value.

(** C4, as amended. When the key 'aoi-features' is missing, or holds the
    empty string, the initial feature list is the empty array. Any other
    stored text is handed to [JSON.parse] and the initializer completes as
    the parser does: with the parsed value when the text is well formed, by
    throwing the parser's error when it is not. There is no fallback. *)
Theorem initial_features_spec (localStorage : gmap string string) :
  (localStorage !! "aoi-features" = None →
     App.initial_features JSON_parse empty_array localStorage
     = Normal empty_array)
  ∧ (localStorage !! "aoi-features" = Some "" →
     App.initial_features JSON_parse empty_array localStorage
     = Normal empty_array)
  ∧ (∀ saved, localStorage !! "aoi-features" = Some saved → saved ≠ "" →
     App.initial_features JSON_parse empty_array localStorage
     = JSON_parse saved)
  ∧ (∀ saved e, localStorage !! "aoi-features" = Some saved → saved ≠ "" →
     JSON_parse saved = Throw e →
     App.initial_features JSON_parse empty_array localStorage = Throw e).
Proof.
  unfold App.initial_features, App.getItem. split_and!.
  - by intros ->.
  - by intros ->.
  - intros saved -> Hne. by rewrite decide_False.
  - intros saved e -> Hne <-. by rewrite decide_False.
Qed.
End PersistedStateProperties.

(** The text of a single opening brace is no JSON value, whatever the
    fuel. *)
Lemma open_brace_is_malformed (fuel : nat) :
  JSON.value_at fuel ["{"%char] = None.
Proof. destruct fuel as [|[|fuel]]; reflexivity. Qed.

Lemma parse_open_brace : JSON.parse "{" = Throw SyntaxError.
Proof. unfold JSON.parse. simpl length. by rewrite open_brace_is_malformed. Qed.

Lemma parse_empty_array : JSON.parse "[]" = Normal (JSON.Array []).
Proof. reflexivity. Qed.

(** C4, counterexample: with the malformed text [{] stored under
    'aoi-features', the initializer throws a [SyntaxError]; it does not fall
    back to the empty list. *)
Lemma initial_features_malformed_throws :
  App.initial_features JSON.parse (JSON.Array [])
    {[ "aoi-features" := "{" ]}
  = Throw SyntaxError.
Proof.
  unfold App.initial_features, App.getItem.
  rewrite lookup_singleton_eq.
  rewrite decide_False by done.
  apply parse_open_brace.
Qed.

(** C4 at an empty storage, at a stored empty array and at a stored opening
    brace. *)
Lemma initial_features_spec_witness :
  App.initial_features JSON.parse (JSON.Array []) ∅ = Normal (JSON.Array [])
  ∧ App.initial_features JSON.parse (JSON.Array []) {[ "aoi-features" := "[]" ]}
    = Normal (JSON.Array [])
  ∧ App.initial_features JSON.parse (JSON.Array []) {[ "aoi-features" := "{" ]}
    = Throw SyntaxError.
Proof.
  split; [|split].
  - apply (proj1 (initial_features_spec JSON.parse (JSON.Array []) ∅)).
    apply lookup_empty.
  - transitivity (JSON.parse "[]"); [|apply parse_empty_array].
    apply (proj1 (proj2 (proj2 (initial_features_spec JSON.parse (JSON.Array [])
                                  {[ "aoi-features" := "[]" ]}))) "[]").
    + apply lookup_singleton_eq.
    + done.
  - apply (proj2 (proj2 (proj2 (initial_features_spec JSON.parse (JSON.Array [])
                                  {[ "aoi-features" := "{" ]}))) "{" SyntaxError).
    + apply lookup_singleton_eq.
    + done.
    + apply parse_open_brace.
Defined.

(* ===================================================================== *)
(** * Properties of the restore effect *)
(* ===================================================================== *)

Section RestoreProperties.
Context {num : Type} `{JSNumber num}.
Import Leaflet.

(** Adding one new layer per feature: the layers get the next object
    identities, in list order. *)
Lemma add_new_layers (layer_of : AOIFeature num → Layer num)
    (features : list (AOIFeature num)) (s : Surface num) :
  foldl (λ s feature, addNewLayer s (layer_of feature)) s features
  = mkSurface (created s + length features)
      (drawnItems s
       ++ zip (seq (created s) (length features)) (layer_of <$> features)).
Proof.
  revert s. induction features as [|f fs IH]; intros s; simpl.
  - destruct s. simpl. by rewrite Nat.add_0_r, app_nil_r.
  - rewrite IH. simpl. f_equal; [lia|].
    by rewrite <-app_assoc.
Qed.

Lemma rebuilt_surface (layer_of : AOIFeature num → Layer num)
    (features : list (AOIFeature num)) (s : Surface num) :
  foldl (λ s feature, addNewLayer s (layer_of feature)) (clearLayers s) features
  = mkSurface (created s + length features)
      (zip (seq (created s) (length features)) (layer_of <$> features)).
Proof. by rewrite add_new_layers. Qed.

Lemma rebuilt_layers (layer_of : AOIFeature num → Layer num)
    (features : list (AOIFeature num)) (c : nat) :
  (zip (seq c (length features)) (layer_of <$> features)).*2
  = layer_of <$> features.
Proof. apply snd_zip. by rewrite length_fmap, length_seq. Qed.

Lemma rebuilt_handles (layer_of : AOIFeature num → Layer num)
    (features : list (AOIFeature num)) (c : nat) :
  (zip (seq c (length features)) (layer_of <$> features)).*1
  = seq c (length features).
Proof. apply fst_zip. by rewrite length_fmap, length_seq. Qed.

(** The side table after a rebuild by [MapContainer]: the feature ids in
    list order, each bound to the identity of the layer made for it. *)
Lemma rebuilt_bindings (createPopupContent : AOIFeature num → string)
    (features : list (AOIFeature num)) (c : nat) :
  bindings (mkSurface (c + length features)
              (zip (seq c (length features))
                 (MapContainer.restore_layer createPopupContent <$> features)))
  = zip (id <$> features) (seq c (length features)).
Proof.
  unfold bindings. simpl.
  revert c. induction features as [|f fs IH]; intros c; [done|].
  simpl. f_equal. apply IH.
Qed.

(** The layers that [App] restores carry no [featureId]. *)
Lemma rebuilt_without_bindings (features : list (AOIFeature num)) (c d : nat) :
  bindings (mkSurface d
              (zip (seq c (length features)) (App.restore_layer <$> features)))
  = [].
Proof.
  unfold bindings. simpl.
  revert c. induction features as [|f fs IH]; intros c; [done|].
  simpl. apply IH.
Qed.

Lemma MapContainer_restore_mounted
    (createPopupContent : AOIFeature num → string)
    (features : list (AOIFeature num)) (s : Surface num) :
  MapContainer.restoreFeatures createPopupContent features (Some s)
  = Some (mkSurface (created s + length features)
            (zip (seq (created s) (length features))
               (MapContainer.restore_layer createPopupContent <$> features))).
Proof. unfold MapContainer.restoreFeatures. by rewrite rebuilt_surface. Qed.

Lemma App_restore_mounted (features : list (AOIFeature num)) (s : Surface num) :
  App.restoreFeatures features (Some s)
  = Some (mkSurface (created s + length features)
            (zip (seq (created s) (length features))
               (App.restore_layer <$> features))).
Proof. unfold App.restoreFeatures. by rewrite rebuilt_surface. Qed.

Lemma rebuilt_count (layer_of : AOIFeature num → Layer num)
    (features : list (AOIFeature num)) (c : nat) :
  length (zip (seq c (length features)) (layer_of <$> features))
  = length features.
Proof.
  rewrite length_zip_with_l_eq by (by rewrite length_fmap, length_seq).
  apply length_seq.
Qed.

(** C1, as amended. On a mounted map, running the restore effect a second
    time with the same feature list gives the same live layers as running it
    once, up to the identity of the layer objects: one layer per feature, in
    list order, with the same shape, style, [featureId] and popup, and the
    same feature ids in the side table. The handles are not the same: each
    run makes new layer objects, so every id is bound to a layer object that
    did not exist after the run before. The effect of [App] gives the same
    layers twice as well; it binds no ids. *)
Theorem restoreFeatures_twice (createPopupContent : AOIFeature num → string)
    (features : list (AOIFeature num)) (s : Surface num) :
  ∃ s1 s2 : Surface num,
    MapContainer.restoreFeatures createPopupContent features (Some s) = Some s1
    ∧ MapContainer.restoreFeatures createPopupContent features (Some s1)
      = Some s2
    ∧ length (drawnItems s1) = length features
    ∧ length (drawnItems s2) = length features
    ∧ layers s1 = MapContainer.restore_layer createPopupContent <$> features
    ∧ layers s2 = layers s1
    ∧ (bindings s1).*1 = id <$> features
    ∧ (bindings s2).*1 = (bindings s1).*1
    ∧ handles s1 = seq (created s) (length features)
    ∧ handles s2 = seq (created s + length features) (length features)
    ∧ (∀ h, h ∈ handles s2 → h ∉ handles s1)
    ∧ ∃ a1 a2 : Surface num,
        App.restoreFeatures features (Some s) = Some a1
        ∧ App.restoreFeatures features (Some a1) = Some a2
        ∧ layers a1 = App.restore_layer <$> features
        ∧ layers a2 = layers a1
        ∧ bindings a1 = [] ∧ bindings a2 = [].
Proof.
  eexists _, _.
  split; [apply MapContainer_restore_mounted|].
  split; [apply MapContainer_restore_mounted|].
  unfold layers, handles. simpl.
  rewrite !rebuilt_bindings, !rebuilt_layers, !rebuilt_handles, !rebuilt_count.
  rewrite !fst_zip by (by rewrite length_fmap, length_seq).
  split_and!; try done.
  - intros h [Hlow _]%elem_of_seq [_ Hhigh]%elem_of_seq. lia.
  - eexists _, _.
    split; [apply App_restore_mounted|].
    split; [apply App_restore_mounted|].
    simpl. rewrite !rebuilt_layers, !rebuilt_without_bindings. done.
Qed.

(** While the refs are [null] the effect does nothing. *)
Lemma restoreFeatures_unmounted (createPopupContent : AOIFeature num → string)
    (features : list (AOIFeature num)) :
  MapContainer.restoreFeatures createPopupContent features None = None
  ∧ App.restoreFeatures features None = None.
Proof. done. Qed.
End RestoreProperties.

(** C1, counterexample: with one marker in the list, the first run of the
    effect binds the marker's id to the layer object 0 and the second run
    binds it to the layer object 1. The id-to-handle bindings after the
    second run are not those after the first. *)
Lemma restoreFeatures_rebinds_handles :
  ∃ s1 s2 : Leaflet.Surface R,
    MapContainer.restoreFeatures name [sample_marker] (Some Leaflet.mounted)
    = Some s1
    ∧ MapContainer.restoreFeatures name [sample_marker] (Some s1) = Some s2
    ∧ Leaflet.bindings s1 = [("lq2x9k3f", 0%nat)]
    ∧ Leaflet.bindings s2 = [("lq2x9k3f", 1%nat)]
    ∧ Leaflet.bindings s2 ≠ Leaflet.bindings s1.
Proof.
  eexists _, _. split; [reflexivity|]. split; [reflexivity|].
  split; [reflexivity|]. split; [reflexivity|].
  cbn. intros [=].
Qed.

(* ===================================================================== *)
(** * The theorems at concrete inputs *)
(* ===================================================================== *)

(** C3 at the polygon of the meridian triangle. *)
Lemma export_polygon_ring_roundtrip_witness :
  (coordinates sample_polygon = PolygonCoords meridian_triangle
   ∨ coordinates sample_polygon = RectangleCoords meridian_triangle)
  ∧ head meridian_triangle = Some (mkLatLng 0%R 10%R)
  ∧ ∃ ring,
      App.export_geometry sample_polygon = Normal (GeoJSON.Polygon [ring])
      ∧ ring = ((λ c, [lng c; lat c]) <$> meridian_triangle) ++ [[10%R; 0%R]]
      ∧ last ring = head ring
      ∧ App.import_ring ring = Some meridian_triangle.
Proof.
  split; [left; reflexivity|]. split; [reflexivity|].
  exact (export_polygon_ring_roundtrip sample_polygon meridian_triangle
           (mkLatLng 0%R 10%R) (or_introl eq_refl) eq_refl).
Defined.

(** C6 at a drawn marker. *)
Lemma created_feature_area_witness :
  ∃ f g : AOIFeature R,
    createFeatureFromLayer "lq2x9k3f" "2024-01-01T00:00:00.000Z"
      (DrawnMarker (mkLatLng 12.9%R 77.6%R)) "" 0 = Normal f
    ∧ App_drawCreated "lq2x9k3f" "2024-01-01T00:00:00.000Z"
        (DrawnMarker (mkLatLng 12.9%R 77.6%R)) 0 = Normal g
    ∧ type f = marker ∧ type g = marker ∧ area f = None.
Proof.
  destruct (created_feature_area "lq2x9k3f" "2024-01-01T00:00:00.000Z"
              (DrawnMarker (mkLatLng 12.9%R 77.6%R)) "" 0)
    as (f & g & Hf & Hg & Htf & Htg & _ & _ & Hmarker & _).
  exists f, g. split; [exact Hf|]. split; [exact Hg|].
  split; [exact Htf|]. split; [exact Htg|].
  apply Hmarker. reflexivity.
Defined.

(** The export of an empty polygon throws; it is the [head] hypothesis of
    C3 that rules this out. *)
Example export_empty_polygon_throws :
  App.export_geometry
    (mkFeature "lq2xa07c" "AOI 2" (PolygonCoords ([] : list (LatLng R)))
       None "#3b82f6" "2024-01-01T00:05:00.000Z")
  = Throw TypeError.
Proof. reflexivity. Qed.

(** Two points enclose nothing, in double arithmetic as well. *)
Example two_points_area_double (fsin fcos : float → float) :
  calculatePolygonArea (H := float_number fsin fcos)
    [mkLatLng 12.5%float 77.5%float; mkLatLng 13%float 77.75%float]
  = Normal 0%float.
Proof. reflexivity. Qed.

(* ===================================================================== *)
(** * Further properties of the feature store *)
(* ===================================================================== *)

Section StoreCompositions.
Context {num : Type} `{JSNumber num}.
Import MapStore.

Lemma toggle_toggle (layer : Layers.key) (l : Layers.t) :
  Layers.toggle layer (Layers.toggle layer l) = l.
Proof. destruct layer, l; simpl; by rewrite negb_involutive. Qed.

(** X1. [toggleLayer] flips the toggle that its key names and no other,
    leaves every other field of the state as it was, and undoes itself when
    it is called twice. *)
Theorem toggleLayer_involution (layer : Layers.key) (s : State num) :
  toggleLayer layer (toggleLayer layer s) = s
  ∧ layer_flag layer (layers (toggleLayer layer s))
    = negb (layer_flag layer (layers s))
  ∧ (∀ other, other ≠ layer →
       layer_flag other (layers (toggleLayer layer s))
       = layer_flag other (layers s))
  ∧ features (toggleLayer layer s) = features s
  ∧ center (toggleLayer layer s) = center s
  ∧ zoom (toggleLayer layer s) = zoom s
  ∧ selectedFeature (toggleLayer layer s) = selectedFeature s.
Proof.
  split_and!; try done.
  - destruct s as [c z l fs sel]. unfold toggleLayer, set, assign. simpl.
    by rewrite toggle_toggle.
  - by destruct layer.
  - intros other Hne. by destruct layer, other.
Qed.

(** X2. Removing the id of a feature right after adding it gives back the
    state from before, when no stored feature has that id. *)
Theorem removeFeature_addFeature (f : AOIFeature num) (s : State num) :
  id f ∉ ids s → removeFeature (id f) (addFeature f s) = s.
Proof.
  intros Hfresh. apply state_eq; [|done].
  unfold removeFeature, addFeature. rewrite !set_features.
  rewrite filter_app, filter_other_ids by done.
  rewrite filter_cons_False by (intros Hne; by apply Hne).
  by rewrite filter_nil, app_nil_r.
Qed.

(** X3. After [removeFeature id] no stored feature has that id, whether or
    not the ids were distinct before; removing the same id again changes
    nothing, and two removals can be done in either order. *)
Theorem removeFeature_clears_id (i j : string) (s : State num) :
  (i ∉ ids (removeFeature i s))
  ∧ removeFeature i (removeFeature i s) = removeFeature i s
  ∧ removeFeature i (removeFeature j s) = removeFeature j (removeFeature i s).
Proof.
  assert (Hgone : i ∉ ids (removeFeature i s)).
  { unfold ids, removeFeature. rewrite set_features.
    intros (f & Hid & [Hne _]%list_elem_of_filter)%list_elem_of_fmap.
    by apply Hne. }
  split_and!.
  - done.
  - apply state_eq; [|done].
    unfold removeFeature at 1. rewrite set_features.
    by apply filter_other_ids.
  - apply state_eq; [|done].
    unfold removeFeature. rewrite !set_features.
    rewrite !list_filter_filter. apply list_filter_iff. tauto.
Qed.
End StoreCompositions.

Section StoreInvariants.
Context {num : Type} `{JSNumber num}.
Import MapStore.

Lemma spread_keeps_id (f : AOIFeature num) (updates : FeatureUpdates num) :
  id' updates = None → id (spread f updates) = id f.
Proof. unfold spread. simpl. by intros ->. Qed.

(** X4. The ids of the stored features stay pairwise distinct under
    [removeFeature], under [clearFeatures], and under every [updateFeature]
    whose updates carry no [id]; such an update leaves the list of ids as it
    was. *)
Theorem unique_ids_preserved (i : string) (updates : FeatureUpdates num)
    (s : State num) :
  NoDup (ids s) →
  NoDup (ids (removeFeature i s))
  ∧ NoDup (ids (clearFeatures s))
  ∧ (id' updates = None →
       ids (updateFeature i updates s) = ids s
       ∧ NoDup (ids (updateFeature i updates s))).
Proof.
  intros Hnd. split_and!.
  - unfold ids, removeFeature. rewrite set_features.
    eapply sublist_NoDup; [exact Hnd|].
    apply fmap_sublist, sublist_filter.
  - apply NoDup_nil_2.
  - intros Hid.
    assert (Hids : ids (updateFeature i updates s) = ids s).
    { unfold ids, updateFeature. rewrite set_features, <-list_fmap_compose.
      apply list_fmap_ext. intros k f _. simpl.
      destruct (decide _); [by apply spread_keeps_id|done]. }
    split; [done|]. by rewrite Hids.
Qed.

(** X5. Of two renamings of the same id in a row the second wins: the
    state is the one that the second renaming alone gives. *)
Theorem updateFeature_rename_twice (i first_name second_name : string)
    (s : State num) :
  updateFeature i (only_name second_name)
    (updateFeature i (only_name first_name) s)
  = updateFeature i (only_name second_name) s.
Proof.
  apply state_eq; [|done].
  unfold updateFeature. rewrite !set_features, <-list_fmap_compose.
  apply list_fmap_ext. intros k f _. simpl.
  destruct (decide (id f = i)) as [Hi|Hi]; simpl.
  - by rewrite decide_True by done.
  - by rewrite decide_False by done.
Qed.

(** X6. The actions on the view ([setCenter], [setZoom], [toggleLayer],
    [setSelectedFeature]) never change the feature list; selecting a feature
    stores it whether or not the list holds it. *)
Theorem view_actions_keep_features (c : num * num) (z : num)
    (layer : Layers.key) (selected : option (AOIFeature num)) (s : State num) :
  features (setCenter c s) = features s
  ∧ features (setZoom z s) = features s
  ∧ features (toggleLayer layer s) = features s
  ∧ features (setSelectedFeature selected s) = features s
  ∧ selectedFeature (setSelectedFeature selected s) = selected
  ∧ center (setCenter c s) = c
  ∧ zoom (setZoom z s) = z.
Proof. by split_and!. Qed.
End StoreInvariants.

Lemma unique_ids_preserved_witness :
  NoDup (MapStore.ids (MapStore.addFeature sample_polygon store_with_marker))
  ∧ NoDup (MapStore.ids
             (MapStore.removeFeature "lq2x9k3f"
                (MapStore.addFeature sample_polygon store_with_marker)))
  ∧ MapStore.ids
      (MapStore.updateFeature "lq2x9k3f" (MapStore.only_name "Harbour")
         (MapStore.addFeature sample_polygon store_with_marker))
    = ["lq2x9k3f"; "lq2xa07c"].
Proof.
  assert (Hnd : NoDup (MapStore.ids
                  (MapStore.addFeature sample_polygon store_with_marker))).
  { change (NoDup ["lq2x9k3f"; "lq2xa07c"]).
    apply NoDup_cons. split; [|apply NoDup_singleton].
    by intros [=]%list_elem_of_singleton. }
  split; [exact Hnd|]. split.
  - exact (proj1 (unique_ids_preserved "lq2x9k3f"
                    (MapStore.only_name "Harbour") _ Hnd)).
  - exact (proj1 (proj2 (proj2 (unique_ids_preserved "lq2x9k3f"
                    (MapStore.only_name "Harbour") _ Hnd)) eq_refl)).
Defined.

Lemma removeFeature_addFeature_witness :
  (id sample_polygon ∉ MapStore.ids store_with_marker)
  ∧ MapStore.removeFeature "lq2xa07c"
      (MapStore.addFeature sample_polygon store_with_marker)
    = store_with_marker.
Proof.
  assert (Hfresh : id sample_polygon ∉ MapStore.ids store_with_marker).
  { change (MapStore.ids store_with_marker) with ["lq2x9k3f"].
    by intros [=]%list_elem_of_singleton. }
  split; [exact Hfresh|].
  exact (removeFeature_addFeature sample_polygon store_with_marker Hfresh).
Defined.

(* ===================================================================== *)
(** * Further properties of feature creation *)
(* ===================================================================== *)

Section CreationCompositions.
Context {num : Type} `{JSNumber num}.
Local Open Scope js_scope.

Lemma default_name_not_empty (n : nat) : "AOI " +:+ pretty n ≠ "".
Proof. done. Qed.

(** X7. Called as [MapContainer] calls it, with the name
    ['AOI ' + (count + 1)], [createFeatureFromLayer] builds the very feature
    that the handler inlined in [App] builds from the same drawn layer, id
    and time; so it does when it is given the empty name. *)
Theorem creation_paths_agree (fresh_id now : string) (layer : DrawnLayer num)
    (n : nat) :
  createFeatureFromLayer fresh_id now layer ("AOI " +:+ pretty (n + 1)%nat) n
  = App_drawCreated fresh_id now layer n
  ∧ createFeatureFromLayer fresh_id now layer "" n
    = App_drawCreated fresh_id now layer n.
Proof.
  unfold createFeatureFromLayer, App_drawCreated, calculateCircleArea.
  split.
  - rewrite decide_False by apply default_name_not_empty.
    by destruct layer.
  - rewrite decide_True by done. by destruct layer.
Qed.

(** X8. Every feature that [createFeatureFromLayer] returns carries the id
    and the time it was given, the type of the drawn layer with the colour
    that [FEATURE_COLORS] has for that type, the drawn vertices (or centre
    and radius, or position) unchanged, a name that is not empty, and an
    area that, when present, is greater than zero. *)
Theorem created_feature_invariants (fresh_id now : string)
    (layer : DrawnLayer num) (given_name : string) (n : nat) :
  ∃ f,
    createFeatureFromLayer fresh_id now layer given_name n = Normal f
    ∧ id f = fresh_id ∧ createdAt f = now
    ∧ type f = layerType layer
    ∧ color f = FEATURE_COLORS (type f)
    ∧ coordinates f = match layer with
                      | DrawnPolygon latlngs => PolygonCoords latlngs
                      | DrawnRectangle latlngs => RectangleCoords latlngs
                      | DrawnCircle center radius => CircleCoords center radius
                      | DrawnMarker pos => MarkerCoords pos
                      end
    ∧ name f ≠ ""
    ∧ (given_name ≠ "" → name f = given_name)
    ∧ (∀ a, area f = Some a → gt a (lit 0) = true).
Proof.
  unfold createFeatureFromLayer.
  assert (Hname : (if decide (given_name = "")
                   then "AOI " +:+ pretty (n + 1)%nat else given_name) ≠ "").
  { destruct (decide _); [apply default_name_not_empty|done]. }
  assert (Harea : ∀ x a : num, positive_or_undefined x = Some a →
                               gt a (lit 0) = true).
  { intros x a. unfold positive_or_undefined.
    destruct (gt x (lit 0)) eqn:Hgt; [|done]. by intros [= <-]. }
  destruct layer as [pts|pts|c r|p]; simpl;
    rewrite ?calculatePolygonArea_eq, ?bind_Normal;
    eexists; (split; [reflexivity|]); simpl;
    (split_and!; try done; eauto).
  all: intros Hne; by rewrite decide_False.
Qed.
End CreationCompositions.

(* ===================================================================== *)
(** * Further properties of the export *)
(* ===================================================================== *)

Section ExportCompositions.
Context {num : Type} `{JSNumber num}.
Local Open Scope js_scope.

Lemma has_no_vertex_dec (f : AOIFeature num) :
  has_no_vertex f ∨ ¬ has_no_vertex f.
Proof.
  unfold has_no_vertex.
  destruct (coordinates f) as [[|p ps]|[|p ps]|c r|p];
    first [ by left; left | by left; right | right; by intros [?|?] ].
Qed.

Lemma export_feature_no_vertex (f : AOIFeature num) :
  has_no_vertex f → App.export_feature f = Throw TypeError.
Proof.
  unfold App.export_feature, App.export_geometry.
  by intros [-> | ->].
Qed.

Lemma export_feature_vertex (f : AOIFeature num) :
  ¬ has_no_vertex f →
  ∃ geometry,
    App.export_geometry f = Normal geometry
    ∧ App.export_feature f
      = Normal (GeoJSON.mkFeature
                  (GeoJSON.mkProperties (id f) (name f) (type f) (area f)
                     (createdAt f))
                  geometry).
Proof.
  unfold has_no_vertex, App.export_feature, App.export_geometry.
  destruct (coordinates f) as [[|p ps]|[|p ps]|c r|p]; intros Hv;
    try (exfalso; apply Hv; by eauto); eexists; by split.
Qed.

(** [mapM] over a list without failing element returns the results in
    order. *)
Lemma mapM_export_Normal (features : list (AOIFeature num)) :
  Forall (λ f, ¬ has_no_vertex f) features →
  ∃ exported,
    mapM App.export_feature features = Normal exported
    ∧ Forall2 (λ f g, App.export_feature f = Normal g) features exported.
Proof.
  induction 1 as [|f fs Hf _ (exported & Hall & Hrel)]; simpl.
  - by exists [].
  - destruct (export_feature_vertex f Hf) as (geometry & _ & Hg).
    rewrite Hg, bind_Normal, Hall. simpl. eexists. split; [done|].
    by constructor.
Qed.

Lemma mapM_export_Throw (features : list (AOIFeature num)) :
  Exists has_no_vertex features →
  mapM App.export_feature features = Throw TypeError.
Proof.
  induction features as [|f fs IH]; intros Hex; [by inv Hex|].
  simpl. destruct (has_no_vertex_dec f) as [Hf|Hf].
  - by rewrite (export_feature_no_vertex f Hf).
  - destruct (export_feature_vertex f Hf) as (geometry & _ & ->).
    rewrite bind_Normal. inv Hex; [done|]. by rewrite IH.
Qed.

(** X9. [exportGeoJSON] reports "nothing to export" for the empty list and
    only for it. For a list that is not empty, none of whose polygons and
    rectangles is without a vertex, it returns a collection with one Feature
    per stored feature, in list order, whose properties are the id, name,
    type, area and creation time of that feature and whose geometry is the
    exported geometry of that feature. *)
Theorem exportGeoJSON_document (features : list (AOIFeature num)) :
  App.exportGeoJSON ([] : list (AOIFeature num)) = Normal None
  ∧ (features ≠ [] → App.exportGeoJSON features ≠ Normal None)
  ∧ (features ≠ [] → Forall (λ f, ¬ has_no_vertex f) features →
     ∃ document,
       App.exportGeoJSON features = Normal (Some document)
       ∧ length (GeoJSON.features document) = length features
       ∧ ∀ i f, features !! i = Some f →
           ∃ geometry,
             App.export_geometry f = Normal geometry
             ∧ GeoJSON.features document !! i
               = Some (GeoJSON.mkFeature
                         (GeoJSON.mkProperties (id f) (name f) (type f)
                            (area f) (createdAt f))
                         geometry)).
Proof.
  split_and!.
  - done.
  - intros Hne. unfold App.exportGeoJSON.
    rewrite decide_False by (by destruct features).
    by destruct (mapM App.export_feature features).
  - intros Hne Hall. unfold App.exportGeoJSON.
    rewrite decide_False by (by destruct features).
    destruct (mapM_export_Normal features Hall) as (exported & -> & Hrel).
    rewrite bind_Normal. eexists. split; [done|]. simpl. split.
    + symmetry. by eapply Forall2_length.
    + intros i f Hi.
      destruct (Forall2_lookup_l _ _ _ _ _ Hrel Hi) as (g & Hg & Hfg).
      destruct (export_feature_vertex f) as (geometry & Hgeo & Hexp).
      { eapply Forall_lookup_1 in Hall; [|exact Hi]. done. }
      exists geometry. split; [done|]. rewrite Hg. congruence.
Qed.

(** X10. The export of a list that is not empty throws exactly when some
    polygon or rectangle of the list has no vertex; the error is then a
    [TypeError] (from [coords[0][1]]), and no document is produced. *)
Theorem exportGeoJSON_throws_iff (features : list (AOIFeature num)) :
  features ≠ [] →
  (App.exportGeoJSON features = Throw TypeError
   ↔ Exists has_no_vertex features)
  ∧ (∀ e, App.exportGeoJSON features = Throw e → e = TypeError).
Proof.
  intros Hne.
  assert (Hcases : Exists has_no_vertex features
                   ∨ Forall (λ f, ¬ has_no_vertex f) features).
  { induction features as [|f fs IH]; [by right|].
    destruct (has_no_vertex_dec f) as [Hf|Hf]; [left; by constructor|].
    destruct fs as [|f' fs'].
    - right. by repeat constructor.
    - destruct IH as [Hex|Hall]; [done|left; by constructor|right; by constructor]. }
  unfold App.exportGeoJSON. rewrite decide_False by (by destruct features).
  destruct Hcases as [Hex|Hall].
  - rewrite (mapM_export_Throw _ Hex). split; [done|]. by intros e [= <-].
  - destruct (mapM_export_Normal _ Hall) as (exported & -> & _).
    rewrite bind_Normal. split; [|done]. split; [done|].
    intros Hex. exfalso.
    apply Exists_exists in Hex as (f & Hin & Hf).
    by eapply Forall_forall in Hall.
Qed.

(** X11. The ring exported for a circle has 33 positions. The position of
    index [i] is the centre moved by
    [radius / (111320 * cos(lat * pi / 180)) * sin(angle)] in longitude and by
    [radius / 111320 * cos(angle)] in latitude, longitude first, at the angle
    [(i / 32) * 2 * pi]: the indices 0 to 31 are 32 equally spaced samples, in
    the order of the loop. This holds in every arithmetic. *)
Theorem circle_ring_samples (center : LatLng num) (radius : num) (i : nat) :
  (i < 33)%nat →
  length (App.circle_ring center radius) = 33%nat
  ∧ App.circle_ring center radius !! i
    = Some
        (let angle := lit (Z.of_nat i) / lit 32 * lit 2 * Math_PI in
         [ lng center
             + radius / (lit 111320 * Math_cos (lat center * Math_PI / lit 180))
               * Math_sin angle;
           lat center + radius / lit 111320 * Math_cos angle ]).
Proof.
  intros Hi. split; [apply circle_ring_length|].
  by rewrite circle_ring_lookup.
Qed.

(** X12. A polygon that has just been created from a drawn layer exports to
    the ring of the drawn vertices, each as [[lng, lat]], closed by the first
    one; a created marker exports to the Point [[lng, lat]] of its
    position. *)
Theorem created_feature_export (fresh_id now given_name : string) (n : nat)
    (first : LatLng num) (rest : list (LatLng num)) (pos : LatLng num) :
  (∃ f,
     createFeatureFromLayer fresh_id now (DrawnPolygon (first :: rest))
       given_name n = Normal f
     ∧ App.export_geometry f
       = Normal (GeoJSON.Polygon
                   [((λ c, [lng c; lat c]) <$> first :: rest)
                    ++ [[lng first; lat first]]]))
  ∧ (∃ f,
       createFeatureFromLayer fresh_id now (DrawnMarker pos) given_name n
       = Normal f
       ∧ App.export_geometry f = Normal (GeoJSON.Point [lng pos; lat pos])).
Proof.
  unfold createFeatureFromLayer. split.
  - rewrite calculatePolygonArea_eq, !bind_Normal. eexists. by split.
  - rewrite bind_Normal. eexists. by split.
Qed.
End ExportCompositions.

(* ===================================================================== *)
(** * Properties of the statistics and of the notifications *)
(* ===================================================================== *)

Section AnalyticsProperties.
Context {num : Type} `{JSNumber num}.
Variable truthy : num → bool.
Variable toFixed : num → nat → string.

(** X13. The four counts by type of the analytics view add up to the
    number of features: every feature is counted once. *)
Theorem type_counts_partition (features : list (AOIFeature num)) :
  (Analytics.count_of polygon features
   + Analytics.count_of rectangle features
   + Analytics.count_of circle features
   + Analytics.count_of marker features)%nat
  = length features.
Proof.
  unfold Analytics.count_of.
  induction features as [|f fs IH]; [done|].
  rewrite !filter_cons. simpl length. rewrite <-IH.
  destruct (type f); repeat case_decide; try done; simpl; lia.
Qed.

Lemma no_area_filter (features : list (AOIFeature num)) :
  Forall (λ f, Analytics.has_area truthy f = false) features →
  Analytics.featuresWithArea truthy features = [].
Proof.
  unfold Analytics.featuresWithArea.
  induction 1 as [|f fs Hf _ IH]; [done|].
  rewrite filter_cons_False by (by rewrite Hf). done.
Qed.

(** X14. The average area divides by the number of features that have a
    truthy area and never by zero: when no feature has one, as in the empty
    list or in a list of markers, the average is the literal 0 and the view
    shows '0 m²'; otherwise the divisor is at least 1 and at most the number
    of features. *)
Theorem avgArea_guard (features : list (AOIFeature num)) :
  (Forall (λ f, Analytics.has_area truthy f = false) features →
     Analytics.avgArea truthy features = lit 0
     ∧ Analytics.shown toFixed (Analytics.avgArea truthy features) = "0 m²")
  ∧ (Exists (λ f, Analytics.has_area truthy f = true) features →
     ∃ n : nat,
       (1 ≤ n ≤ length features)%nat
       ∧ n = length (Analytics.featuresWithArea truthy features)
       ∧ Analytics.avgArea truthy features
         = div (Analytics.totalArea truthy features) (lit (Z.of_nat n))).
Proof.
  split.
  - intros Hnone. unfold Analytics.avgArea.
    rewrite (no_area_filter _ Hnone). simpl. split; [done|].
    unfold Analytics.shown. by rewrite gt_zero_zero.
  - intros Hsome. unfold Analytics.avgArea.
    set (n := length (Analytics.featuresWithArea truthy features)).
    assert (Hn : (1 ≤ n ≤ length features)%nat).
    { subst n. unfold Analytics.featuresWithArea. split.
      - apply Exists_exists in Hsome as (f & Hin & Hf).
        assert (Hfin : f ∈ filter (λ f, Analytics.has_area truthy f = true)
                            features).
        { by apply list_elem_of_filter. }
        destruct (filter _ features); [by apply not_elem_of_nil in Hfin|].
        simpl. lia.
      - apply length_filter. }
    exists n. split; [done|]. split; [done|].
    by rewrite (proj2 (Nat.ltb_lt 0 n)) by lia.
Qed.
End AnalyticsProperties.

Section NotificationProperties.
Import Notifications.

(** X15. [markNotificationRead id] keeps the length, the order and the ids
    of the list, makes every notification of that id read and leaves the
    others as they were; the unread count goes down by the number of unread
    notifications of that id, and marking again changes nothing. *)
Theorem markNotificationRead_spec (i : string) (ns : list Notification) :
  length (markNotificationRead i ns) = length ns
  ∧ id <$> markNotificationRead i ns = id <$> ns
  ∧ (∀ n, n ∈ markNotificationRead i ns → id n = i → read n = true)
  ∧ (∀ n, n ∈ ns → id n ≠ i → n ∈ markNotificationRead i ns)
  ∧ (unreadCount (markNotificationRead i ns)
     + length (filter (λ n, id n = i ∧ read n = false) ns))%nat
    = unreadCount ns
  ∧ markNotificationRead i (markNotificationRead i ns)
    = markNotificationRead i ns.
Proof.
  unfold markNotificationRead, unreadCount. split_and!.
  - apply length_fmap.
  - rewrite <-list_fmap_compose. apply list_fmap_ext.
    intros k n _. simpl. by destruct (decide _).
  - intros n (m & -> & Hm)%list_elem_of_fmap.
    destruct (decide (id m = i)); [done|]. by intros ?.
  - intros n Hn Hne. apply list_elem_of_fmap. exists n.
    by rewrite decide_False.
  - induction ns as [|n ns IH]; [done|].
    rewrite fmap_cons, !filter_cons.
    destruct (decide (id n = i)) as [Hi|Hi].
    + rewrite decide_False by done.
      destruct (read n) eqn:Hr.
      * rewrite !decide_False by (try intros [_ ?]; done). exact IH.
      * rewrite !decide_True by done. simpl. lia.
    + destruct (read n) eqn:Hr.
      * rewrite !decide_False by (try intros [? ?]; done). exact IH.
      * rewrite decide_True by done.
        rewrite decide_False by (by intros [? _]). simpl. lia.
  - rewrite <-list_fmap_compose. apply list_fmap_ext.
    intros k n _. simpl. destruct (decide (id n = i)) as [Hi|Hi].
    + by rewrite decide_True by done.
    + by rewrite decide_False by done.
Qed.

End NotificationProperties.

(* ===================================================================== *)
(** * Properties of the drawing-tool activation *)
(* ===================================================================== *)

Section DrawToolsProperties.
Import DrawTools.

(** Once the effect has released the current handler, no handler is
    enabled. *)
Lemma released_all_disabled (s : State) :
  only_current_enabled s →
  ∀ i h,
    handlers (match current s with
              | Some c => mkState (alter disable c (handlers s)) None
              | None => s
              end) !! i = Some h →
    enabled h = false.
Proof.
  intros Hinv i h. destruct (current s) as [c|] eqn:Hc; simpl.
  - destruct (decide (i = c)) as [->|Hne].
    + rewrite list_lookup_alter_eq.
      destruct (handlers s !! c); [|done]. by intros [= <-].
    + rewrite list_lookup_alter_ne by done. intros Hi.
      destruct (enabled h) eqn:He; [|done].
      specialize (Hinv i h Hi He). congruence.
  - intros Hi. destruct (enabled h) eqn:He; [|done].
    specialize (Hinv i h Hi He). congruence.
Qed.

Lemma released_current (s : State) :
  current (match current s with
           | Some c => mkState (alter disable c (handlers s)) None
           | None => s
           end) = None.
Proof. by destruct (current s) eqn:Hc. Qed.

Lemma activate_invariant (mounted : bool) (activeTool : option string)
    (s : State) :
  only_current_enabled s → only_current_enabled (activate mounted activeTool s).
Proof.
  intros Hinv. unfold activate.
  destruct mounted; simpl; [|done].
  pose proof (released_all_disabled s Hinv) as Hoff.
  pose proof (released_current s) as Hcur.
  set (s1 := match current s with
             | Some c => mkState (alter disable c (handlers s)) None
             | None => s
             end) in *.
  assert (Hs1 : only_current_enabled s1).
  { intros i h Hi He. rewrite (Hoff i h Hi) in He. done. }
  destruct activeTool as [t|]; [|done].
  destruct (decide (t = "")); [done|].
  destruct (handler_kind t) as [k|]; [|done].
  intros i h. simpl. intros Hi He.
  apply lookup_app_Some in Hi as [Hi|[Hlen Hi]].
  - rewrite (Hoff i h Hi) in He. done.
  - apply list_lookup_singleton_Some in Hi as [Hi _].
    f_equal. lia.
Qed.

(** X16. Whatever the history of renders, after the activation effect has
    run for each of them at most one draw handler is enabled, and it is the
    one that the ref holds: a handler that has been replaced never stays
    enabled. *)
Theorem at_most_one_handler_enabled (history : list (bool * option string)) :
  only_current_enabled (run history)
  ∧ ∀ i j hi hj,
      handlers (run history) !! i = Some hi → enabled hi = true →
      handlers (run history) !! j = Some hj → enabled hj = true →
      i = j.
Proof.
  assert (Hinv : only_current_enabled (run history)).
  { unfold run.
    assert (Hgen : ∀ s, only_current_enabled s →
              only_current_enabled
                (foldl (λ s step, activate step.1 step.2 s) s history)).
    { induction history as [|step steps IH]; intros s Hs; [done|].
      simpl. apply IH. by apply activate_invariant. }
    apply Hgen. by intros i h Hi. }
  split; [done|].
  intros i j hi hj Hi Hei Hj Hej.
  pose proof (Hinv i hi Hi Hei). pose proof (Hinv j hj Hj Hej). congruence.
Qed.

(** X17. On a mounted map, from a state in which only the current handler
    may be enabled: activating one of the four tools leaves exactly one
    handler enabled, a new one of that tool, held by the ref; activating
    with [null], with the empty string or with any other string leaves no
    handler enabled and the ref empty. Clicking the button of the active
    tool is such a deactivation. *)
Theorem activate_postcondition (activeTool : option string) (s : State) :
  only_current_enabled s →
  match activeTool ≫= handler_kind with
  | Some k =>
      current (activate true activeTool s) = Some (length (handlers s))
      ∧ handlers (activate true activeTool s) !! length (handlers s)
        = Some (mkHandler k true)
      ∧ ∀ i h, handlers (activate true activeTool s) !! i = Some h →
               enabled h = true → i = length (handlers s)
  | None =>
      current (activate true activeTool s) = None
      ∧ ∀ i h, handlers (activate true activeTool s) !! i = Some h →
               enabled h = false
  end
  ∧ ∀ t, handleToolClick (Some t) t = None.
Proof.
  intros Hinv. split; [|intros t; unfold handleToolClick; by rewrite decide_True].
  pose proof (released_all_disabled s Hinv) as Hoff.
  pose proof (released_current s) as Hcur.
  assert (Hlen : length (handlers (match current s with
                  | Some c => mkState (alter disable c (handlers s)) None
                  | None => s
                  end)) = length (handlers s)).
  { destruct (current s); simpl; [apply length_alter|done]. }
  unfold activate. simpl.
  set (s1 := match current s with
             | Some c => mkState (alter disable c (handlers s)) None
             | None => s
             end) in *.
  destruct activeTool as [t|]; simpl; [|by split].
  destruct (decide (t = "")) as [->|Hne]; [by split|].
  destruct (handler_kind t) as [k|] eqn:Hk; [|by split].
  simpl. rewrite Hlen. split_and!.
  - done.
  - rewrite lookup_app_r by lia. by rewrite Hlen, Nat.sub_diag.
  - intros i h Hi He.
    apply lookup_app_Some in Hi as [Hi|[Hge Hi]].
    + rewrite (Hoff i h Hi) in He. done.
    + apply list_lookup_singleton_Some in Hi as [Hi _]. lia.
Qed.
End DrawToolsProperties.

(** X17 at the initial state, the polygon tool being activated. *)
Lemma activate_postcondition_witness :
  DrawTools.only_current_enabled DrawTools.initial
  ∧ DrawTools.current (DrawTools.activate true (Some "polygon") DrawTools.initial)
    = Some 0%nat
  ∧ DrawTools.handlers
      (DrawTools.activate true (Some "polygon") DrawTools.initial) !! 0%nat
    = Some (DrawTools.mkHandler polygon true).
Proof.
  assert (Hinit : DrawTools.only_current_enabled DrawTools.initial).
  { by intros i h Hi. }
  split; [exact Hinit|].
  destruct (proj1 (activate_postcondition (Some "polygon") DrawTools.initial
                     Hinit)) as (Hcur & Hnew & _).
  split; [exact Hcur|exact Hnew].
Defined.

(* ===================================================================== *)
(** * Properties of the visibility effects *)
(* ===================================================================== *)

Set Warnings "-clear-no-such-hyp".

(** X18. After a visibility effect on a mounted map the map has the layer
    exactly when [visible] is true; every other layer is on the map exactly
    when it was before; and running the effect a second time changes
    nothing. While a ref is [null] the effect does nothing. *)
Theorem showLayer_spec (layer : nat) (visible : bool) (layers : gset nat) :
  ∃ after : gset nat,
    Visibility.showLayer layer visible (Some layers) = Some after
    ∧ (layer ∈ after ↔ visible = true)
    ∧ (∀ other, other ≠ layer → other ∈ after ↔ other ∈ layers)
    ∧ Visibility.showLayer layer visible (Some after) = Some after
    ∧ Visibility.showLayer layer visible None = None.
Proof.
  unfold Visibility.showLayer. destruct visible.
  - destruct (decide (layer ∈ layers)) as [Hin|Hnin].
    + exists layers. split_and!; try done.
      by rewrite decide_True.
    + exists ({[ layer ]} ∪ layers). split_and!; try done.
      * split; [done|]. intros _. set_solver.
      * intros other Hne. set_solver.
      * rewrite decide_True by set_solver. done.
  - exists (layers ∖ {[ layer ]}). split_and!; try done.
    + split; [|done]. set_solver.
    + intros other Hne. set_solver.
    + f_equal. set_solver.
Qed.

(* ===================================================================== *)
(** * Properties of saving and reloading *)
(* ===================================================================== *)

Section PersistenceProperties.
Context {value : Type}.
Variable JSON_parse : string → completion value.
Variable JSON_stringify : value → string.
Variable empty_array : value.

(** X19. What the save effect writes under 'aoi-features' is what the
    initializer reads back after a reload: when the serialized text of the
    feature list is not empty and parses back to the list, the initial
    feature list after saving is that list, whatever else the storage held
    and whether the notifications were saved before or after. Saving the
    notifications never changes what the feature list reloads to, and saving
    the features never changes what the notifications reload to. *)
Theorem saved_features_reload (features notifications defaults : value)
    (localStorage : gmap string string) :
  JSON_parse (JSON_stringify features) = Normal features →
  JSON_stringify features ≠ "" →
  App.initial_features JSON_parse empty_array
    (Persistence.save_features JSON_stringify features localStorage)
  = Normal features
  ∧ App.initial_features JSON_parse empty_array
      (Persistence.save_notifications JSON_stringify notifications
         (Persistence.save_features JSON_stringify features localStorage))
    = Normal features
  ∧ App.initial_features JSON_parse empty_array
      (Persistence.save_notifications JSON_stringify notifications localStorage)
    = App.initial_features JSON_parse empty_array localStorage
  ∧ Persistence.initial_notifications JSON_parse defaults
      (Persistence.save_features JSON_stringify features localStorage)
    = Persistence.initial_notifications JSON_parse defaults localStorage.
Proof.
  intros Hround Hne.
  unfold App.initial_features, Persistence.initial_notifications, App.getItem,
    Persistence.save_features, Persistence.save_notifications,
    Persistence.setItem.
  split_and!.
  - rewrite lookup_insert_eq. by rewrite decide_False.
  - rewrite lookup_insert_ne by done.
    rewrite lookup_insert_eq. by rewrite decide_False.
  - by rewrite lookup_insert_ne.
  - by rewrite lookup_insert_ne.
Qed.
End PersistenceProperties.

Lemma sample_marker_json_round_trip :
  JSON.parse (JSON_print sample_marker_json) = Normal sample_marker_json.
Proof. vm_compute. reflexivity. Qed.

Lemma sample_marker_json_text_not_empty : JSON_print sample_marker_json ≠ "".
Proof. vm_compute. discriminate. Qed.

(** X19 with the parser and the serializer of the JSON module, at the
    stored form of the sample marker and an empty storage. *)
Lemma saved_features_reload_witness :
  JSON.parse (JSON_print sample_marker_json) = Normal sample_marker_json
  ∧ JSON_print sample_marker_json ≠ ""
  ∧ App.initial_features JSON.parse (JSON.Array [])
      (Persistence.save_features JSON_print sample_marker_json ∅)
    = Normal sample_marker_json.
Proof.
  split; [exact sample_marker_json_round_trip|].
  split; [exact sample_marker_json_text_not_empty|].
  exact (proj1 (saved_features_reload JSON.parse JSON_print (JSON.Array [])
                  sample_marker_json (JSON.Array []) (JSON.Array []) ∅
                  sample_marker_json_round_trip
                  sample_marker_json_text_not_empty)).
Defined.

(* ===================================================================== *)
(** * The restore effect after the actions of the store *)
(* ===================================================================== *)

Section RestoreAfterStore.
Context {num : Type} `{JSNumber num}.

(** X20. After the restore effect of [MapContainer] has run on a mounted
    map for the features of the store, the ids bound to live layers are the
    ids of the stored features, in order, each on a layer object of its own:
    distinct ids give one live layer per id. After [removeFeature id] the
    removed id is bound to no live layer, and after [clearFeatures] no layer
    is live. *)
Theorem restore_after_store (createPopupContent : AOIFeature num → string)
    (i : string) (st : MapStore.State num) (s : Leaflet.Surface num) :
  (∃ s1,
     MapContainer.restoreFeatures createPopupContent (MapStore.features st)
       (Some s) = Some s1
     ∧ (Leaflet.bindings s1).*1 = MapStore.ids st
     ∧ NoDup (Leaflet.handles s1)
     ∧ (NoDup (MapStore.ids st) → NoDup (Leaflet.bindings s1).*1))
  ∧ (∃ s2,
       MapContainer.restoreFeatures createPopupContent
         (MapStore.features (MapStore.removeFeature i st)) (Some s) = Some s2
       ∧ i ∉ (Leaflet.bindings s2).*1)
  ∧ (∃ s3,
       MapContainer.restoreFeatures createPopupContent
         (MapStore.features (MapStore.clearFeatures st)) (Some s) = Some s3
       ∧ Leaflet.drawnItems s3 = []).
Proof.
  assert (Hids : ∀ features : list (AOIFeature num),
    ∃ s1, MapContainer.restoreFeatures createPopupContent features (Some s)
          = Some s1
          ∧ (Leaflet.bindings s1).*1 = id <$> features
          ∧ NoDup (Leaflet.handles s1)).
  { intros features. eexists. split; [apply MapContainer_restore_mounted|].
    rewrite rebuilt_bindings. unfold Leaflet.handles. simpl.
    rewrite rebuilt_handles.
    rewrite fst_zip by (by rewrite length_fmap, length_seq).
    split; [done|apply NoDup_seq]. }
  split_and!.
  - destruct (Hids (MapStore.features st)) as (s1 & Hs1 & Hb & Hh).
    exists s1. split_and!; try done. intros Hnd. by rewrite Hb.
  - destruct (Hids (MapStore.features (MapStore.removeFeature i st)))
      as (s2 & Hs2 & Hb & _).
    exists s2. split; [done|]. rewrite Hb.
    unfold MapStore.removeFeature. rewrite set_features.
    intros (f & Hid & [Hne _]%list_elem_of_filter)%list_elem_of_fmap.
    by apply Hne.
  - eexists. split; [apply MapContainer_restore_mounted|]. done.
Qed.
End RestoreAfterStore.

(* ===================================================================== *)
(** * Properties of the area formatting *)
(* ===================================================================== *)

Section FormatProperties.
Context {num : Type} `{JSNumber num}.
Variable toFixed : num → nat → string.
Variable truthy : num → bool.

(** X21. The three copies of the area formatter agree: the one of [App]
    returns the text of [formatArea] for every number, and the one of the
    popup returns it for every truthy area; for a missing or falsy area the
    popup formatter returns the empty text. *)
Theorem formatArea_copies_agree (x : num) :
  Format.App_formatArea toFixed x = Format.formatArea toFixed x
  ∧ (truthy x = true →
     Format.formatAreaValue toFixed truthy (Some x)
     = Format.formatArea toFixed x)
  ∧ (truthy x = false →
     Format.formatAreaValue toFixed truthy (Some x) = "")
  ∧ Format.formatAreaValue toFixed truthy None = "".
Proof.
  unfold Format.App_formatArea, Format.formatArea, Format.formatAreaValue.
  split_and!.
  - by destruct (Format.lt x (lit 10000)), (Format.lt x (lit 1000000)).
  - by intros ->.
  - by intros ->.
  - done.
Qed.
End FormatProperties.

(* ===================================================================== *)
(** * The further theorems at concrete inputs *)
(* ===================================================================== *)

(** X10 at the list of the marker and the empty polygon. *)
Lemma exportGeoJSON_throws_iff_witness :
  [sample_marker; empty_polygon] ≠ []
  ∧ Exists has_no_vertex [sample_marker; empty_polygon]
  ∧ App.exportGeoJSON [sample_marker; empty_polygon] = Throw TypeError.
Proof.
  assert (Hne : [sample_marker; empty_polygon] ≠ []) by done.
  assert (Hex : Exists has_no_vertex [sample_marker; empty_polygon]).
  { apply Exists_cons_tl, Exists_cons_hd. by left. }
  split; [exact Hne|]. split; [exact Hex|].
  exact (proj2 (proj1 (exportGeoJSON_throws_iff
                         [sample_marker; empty_polygon] Hne)) Hex).
Defined.

(** X11 at the index 8, a quarter of the way round, over the reals. *)
Lemma circle_ring_samples_witness :
  (8 < 33)%nat
  ∧ length (App.circle_ring (mkLatLng 20%R 78%R) 1000%R) = 33%nat
  ∧ App.circle_ring (mkLatLng 20%R 78%R) 1000%R !! 8%nat
    = Some [ (78 + 1000 / (111320 * cos (20 * PI / 180))
                   * sin (IZR (Z.of_nat 8) / 32 * 2 * PI))%R;
             (20 + 1000 / 111320 * cos (IZR (Z.of_nat 8) / 32 * 2 * PI))%R ].
Proof.
  assert (Hlt : (8 < 33)%nat) by lia.
  split; [exact Hlt|].
  exact (circle_ring_samples (mkLatLng 20%R 78%R) 1000%R 8 Hlt).
Defined.
